(** * ontarget-ehr-interface: FHIR resource formatters, builders and the
      seed script's cleanup phase, embedded and verified.

    Part I embeds the JavaScript sources as Rocq definitions, one module per
    source file; Part II states and proves the properties.

    Modelling conventions.
    - A JavaScript string is a [string]; a character is one code unit below
      256 (Latin-1).
    - An optional JSON field ([undefined] when absent) is an [option].
    - A JavaScript Number is a [JS.Number]: NaN, the infinities, the two
      zeros, or a finite non-zero decimal kept exactly.  The rounding to
      binary64 that an engine performs (digits beyond its precision,
      overflow to Infinity, underflow to zero) is not modelled.
    - Code that can throw returns a [JS.Completion]. *)

From Stdlib Require Import Bool Arith ZArith NArith List String Ascii Lia.
From Stdlib Require Import DecimalString DecimalN QArith Permutation.
Import ListNotations.
Local Close Scope Q_scope.
Local Open Scope string_scope.
Local Open Scope nat_scope.

(* ===================================================================== *)
(** * Part I: the embedding *)
(* ===================================================================== *)

(** ** The fragment of the JavaScript runtime the sources rely on *)
Module JS.

(** A completion: a normal value or a thrown error carrying its message. *)
Inductive Completion (A : Type) : Type :=
| Normal (a : A)
| Throw (message : string).
Arguments Normal {A} a.
Arguments Throw {A} message.

(** [x || d] for an optional string: the empty string is falsy. *)
Definition truthy (s : string) : bool := negb (s =? "")%string.

Definition truthy_opt (o : option string) : bool :=
  match o with
  | Some s => truthy s
  | None => false
  end.

Definition or_else (o : option string) (d : string) : string :=
  match o with
  | Some s => if truthy s then s else d
  | None => d
  end.

(** [a || b] where both sides are optional strings. *)
Definition or_opt (a b : option string) : option string :=
  if truthy_opt a then a else b.

(** The one-character string holding a double quote. *)
Definition dquote : string := String (ascii_of_nat 34) EmptyString.

(** [`${x}`] for an optional string: an absent one renders as "undefined". *)
Definition template (o : option string) : string :=
  match o with
  | Some s => s
  | None => "undefined"
  end.

(** WhiteSpace and LineTerminator code units below 256. *)
Definition isWhiteSpace (c : ascii) : bool :=
  let n := nat_of_ascii c in
  ((9 <=? n) && (n <=? 13)) || (n =? 32) || (n =? 160).

Fixpoint trimStart (s : string) : string :=
  match s with
  | String c s' => if isWhiteSpace c then trimStart s' else s
  | EmptyString => EmptyString
  end.

Fixpoint trimEnd (s : string) : string :=
  match s with
  | String c s' =>
      match trimEnd s' with
      | EmptyString => if isWhiteSpace c then EmptyString else String c EmptyString
      | t => String c t
      end
  | EmptyString => EmptyString
  end.

(** [String.prototype.trim] *)
Definition trim (s : string) : string := trimEnd (trimStart s).

(** [String.prototype.toLowerCase] on Latin-1 code units. *)
Definition lowerChar (c : ascii) : ascii :=
  let n := nat_of_ascii c in
  if ((65 <=? n) && (n <=? 90))
     || ((192 <=? n) && (n <=? 222) && negb (n =? 215))
  then ascii_of_nat (n + 32) else c.

Fixpoint toLowerCase (s : string) : string :=
  match s with
  | String c s' => String (lowerChar c) (toLowerCase s')
  | EmptyString => EmptyString
  end.

(** [s.includes(t)] *)
Fixpoint includes (s t : string) : bool :=
  prefix t s ||
  match s with
  | String _ s' => includes s' t
  | EmptyString => false
  end.

(** [Array.prototype.join] on an array of strings. *)
Definition join (sep : string) (l : list string) : string := concat sep l.

Fixpoint drop (n : nat) (s : string) : string :=
  match n, s with
  | S n', String _ s' => drop n' s'
  | _, _ => s
  end.

Fixpoint take (n : nat) (s : string) : string :=
  match n, s with
  | S n', String c s' => String c (take n' s')
  | _, _ => EmptyString
  end.

Fixpoint zeros (n : nat) : string :=
  match n with
  | S n' => String "0" (zeros n')
  | O => EmptyString
  end.

(** *** Numbers *)

(** [Finite neg ds n] is the non-zero value [(-1)^neg * 0.ds * 10^n]: [ds]
    is its shortest digit string (no leading and no trailing zero), the
    triple (n, k, s) of Number::toString with k the length of [ds]. *)
Inductive Number : Type :=
| NaN
| Infinity (neg : bool)
| Zero (neg : bool)
| Finite (neg : bool) (ds : string) (n : Z).

Definition isNaN (v : Number) : bool :=
  match v with
  | NaN => true
  | _ => false
  end.

(** [v < 0] *)
Definition lt_zero (v : Number) : bool :=
  match v with
  | Infinity true => true
  | Finite true _ _ => true
  | _ => false
  end.

(** ToBoolean on a Number: NaN and the zeros are falsy. *)
Definition truthy_num (v : Number) : bool :=
  match v with
  | NaN => false
  | Zero _ => false
  | _ => true
  end.


Definition is_digit (c : ascii) : bool :=
  let n := nat_of_ascii c in (48 <=? n) && (n <=? 57).

(** The longest prefix of decimal digits, and what follows it. *)
Fixpoint span_digits (s : string) : string * string :=
  match s with
  | String c s' =>
      if is_digit c
      then let (d, r) := span_digits s' in (String c d, r)
      else (EmptyString, s)
  | EmptyString => (EmptyString, EmptyString)
  end.

(** The value of a string of decimal digits. *)
Definition digits_to_N (ds : string) : N :=
  match NilEmpty.uint_of_string ds with
  | Some u => N.of_uint u
  | None => 0%N
  end.

(** Decimal rendering of a natural number, as in a template literal. *)
Definition N_to_string (n : N) : string :=
  NilEmpty.string_of_uint (N.to_uint n).

Fixpoint strip_leading_zeros (s : string) : nat * string :=
  match s with
  | String c s' =>
      if Ascii.eqb c "0"
      then let (z, r) := strip_leading_zeros s' in (S z, r)
      else (O, s)
  | EmptyString => (O, s)
  end.

Fixpoint strip_trailing_zeros (s : string) : string :=
  match s with
  | String c s' =>
      match strip_trailing_zeros s' with
      | EmptyString =>
          if Ascii.eqb c "0" then EmptyString else String c EmptyString
      | t => String c t
      end
  | EmptyString => EmptyString
  end.

(** The Number denoted by sign, integer digits, fraction digits and
    exponent: StringNumericValue of a StrDecimalLiteral. *)
Definition mkNumber (neg : bool) (ip fp : string) (e : Z) : Number :=
  let (z, ds) := strip_leading_zeros (ip ++ fp) in
  match strip_trailing_zeros ds with
  | EmptyString => Zero neg
  | ds' => Finite neg ds' (Z.of_nat (length ip) + e - Z.of_nat z)
  end.

(** An optional sign character: whether it is a minus, and what follows. *)
Definition scanSign (s : string) : bool * string :=
  match s with
  | String c r =>
      if Ascii.eqb c "+" then (false, r)
      else if Ascii.eqb c "-" then (true, r)
      else (false, s)
  | EmptyString => (false, s)
  end.

(** ExponentPart, when one is there: [e] or [E], an optional sign, at least
    one digit.  Without a digit the literal ends before the indicator. *)
Definition scanExponent (s : string) : Z * string :=
  match s with
  | String c r =>
      if Ascii.eqb c "e" || Ascii.eqb c "E" then
        let (sg, r1) := scanSign r in
        let (ds, r2) := span_digits r1 in
        match ds with
        | EmptyString => (0%Z, s)
        | _ => ((if sg then - Z.of_N (digits_to_N ds)
                 else Z.of_N (digits_to_N ds))%Z, r2)
        end
      else (0%Z, s)
  | EmptyString => (0%Z, s)
  end.

(** The fraction after the integer digits, when a point follows them. *)
Definition scanFraction (s : string) : option (string * string) :=
  match s with
  | String c r => if Ascii.eqb c "." then Some (span_digits r) else None
  | EmptyString => None
  end.

(** StrUnsignedDecimalLiteral: the longest prefix that is one. *)
Definition scanUnsigned (neg : bool) (s : string) : option (Number * string) :=
  if prefix "Infinity" s then Some (Infinity neg, drop 8 s) else
  let (ip, r1) := span_digits s in
  match scanFraction r1 with
  | Some (fp, r2) =>
      if (length ip + length fp =? 0)%nat then None
      else let (e, r3) := scanExponent r2 in Some (mkNumber neg ip fp e, r3)
  | None =>
      if (length ip =? 0)%nat then None
      else let (e, r3) := scanExponent r1 in
           Some (mkNumber neg ip EmptyString e, r3)
  end.

(** StrDecimalLiteral: an optional sign and an unsigned literal. *)
Definition scanFloat (s : string) : option (Number * string) :=
  let (neg, r) := scanSign s in scanUnsigned neg r.

(** [parseFloat(string)]: skip leading white space, take the longest
    prefix that is a StrDecimalLiteral; NaN when there is none. *)
Definition parseFloat (s : string) : Number :=
  match scanFloat (trimStart s) with
  | Some (v, _) => v
  | None => NaN
  end.

(** Number::toString(x, 10), which a template literal applies. *)
Definition toString (v : Number) : string :=
  match v with
  | NaN => "NaN"
  | Infinity neg => if neg then "-Infinity" else "Infinity"
  | Zero _ => "0"
  | Finite neg ds n =>
      let k := Z.of_nat (length ds) in
      (if neg then "-" else "") ++
      (if ((k <=? n) && (n <=? 21))%Z then ds ++ zeros (Z.to_nat (n - k))
       else if ((0 <? n) && (n <=? 21))%Z then
         take (Z.to_nat n) ds ++ "." ++ drop (Z.to_nat n) ds
       else if ((-6 <? n) && (n <=? 0))%Z then
         "0." ++ zeros (Z.to_nat (- n)) ++ ds
       else
         let e := (n - 1)%Z in
         let c := if (e <? 0)%Z then "-" else "+" in
         let x := N_to_string (Z.abs_N e) in
         match ds with
         | String d EmptyString => String d EmptyString ++ "e" ++ c ++ x
         | _ => take 1 ds ++ "." ++ drop 1 ds ++ "e" ++ c ++ x
         end)
  end.

(** The Number of a non-negative integer literal. *)
Definition fromN (n : N) : Number := mkNumber false (N_to_string n) "" 0.

(** [parseFloat(v)] on a Number argument: ToString first. *)
Definition parseFloat_num (v : Number) : Number := parseFloat (toString v).


End JS.

(** ** The FHIR R4 resources the sources read and write, with the fields
       they touch *)
Module Fhir.

Record Coding : Type := mkCoding {
  coding_system : option string;
  coding_code : option string;
  coding_display : option string }.

Record CodeableConcept : Type := mkCodeableConcept {
  cc_coding : option (list Coding);
  cc_text : option string }.

Record Reference : Type := mkReference {
  ref_reference : option string;
  ref_display : option string }.

Record Quantity : Type := mkQuantity {
  q_value : option JS.Number;
  q_unit : option string;
  q_system : option string;
  q_code : option string }.

Record Component : Type := mkComponent {
  cmp_code : option CodeableConcept;
  cmp_valueQuantity : option Quantity;
  cmp_valueString : option string;
  cmp_valueCodeableConcept : option CodeableConcept }.

Record Observation : Type := mkObservation {
  obs_resourceType : string;
  obs_status : option string;
  obs_category : option (list CodeableConcept);
  obs_code : option CodeableConcept;
  obs_subject : option Reference;
  obs_effectiveDateTime : option string;
  obs_component : option (list Component);
  obs_valueQuantity : option Quantity;
  obs_valueString : option string;
  obs_valueCodeableConcept : option CodeableConcept;
  obs_performer : option (list Reference) }.

Record Narrative : Type := mkNarrative {
  nar_status : string;
  nar_div : string }.

Record Section : Type := mkSection {
  sec_title : string;
  sec_code : CodeableConcept;
  sec_text : Narrative }.

Record Composition : Type := mkComposition {
  cmpn_resourceType : string;
  cmpn_status : string;
  cmpn_type : CodeableConcept;
  cmpn_category : list CodeableConcept;
  cmpn_subject : Reference;
  cmpn_date : string;
  cmpn_author : list Reference;
  cmpn_title : string;
  cmpn_section : list Section }.

Record HumanName : Type := mkHumanName {
  hn_given : option (list string);
  hn_family : option string }.

(** The [patient] prop of the two forms: a Patient resource read from the
    server, which always carries its id. *)
Record Patient : Type := mkPatient {
  pat_id : string;
  pat_name : option (list HumanName) }.

Record Issue : Type := mkIssue {
  issue_diagnostics : option string }.

(** The body of an error response, once parsed. *)
Record OperationOutcome : Type := mkOperationOutcome {
  oo_issue : option (list Issue) }.

(** [cc?.coding?.[0]?.display] *)
Definition coding0_display (cc : option CodeableConcept) : option string :=
  match cc with
  | Some c =>
      match cc_coding c with
      | Some (k :: _) => coding_display k
      | _ => None
      end
  | None => None
  end.

(** [cc?.coding?.[0]?.code] *)
Definition coding0_code (cc : option CodeableConcept) : option string :=
  match cc with
  | Some c =>
      match cc_coding c with
      | Some (k :: _) => coding_code k
      | _ => None
      end
  | None => None
  end.

(** [cc?.text] *)
Definition text_of (cc : option CodeableConcept) : option string :=
  match cc with
  | Some c => cc_text c
  | None => None
  end.

(** [errorData.issue?.[0]?.diagnostics], where [errorData] is the parsed
    body, or the empty object when the body does not parse. *)
Definition issue0_diagnostics (body : option OperationOutcome) : option string :=
  match body with
  | Some oo =>
      match oo_issue oo with
      | Some (i :: _) => issue_diagnostics i
      | _ => None
      end
  | None => None
  end.

(** What [fetch] resolves or rejects with: a network failure, or a response
    with its status and its body ([None] when [response.json()] rejects). *)
Inductive FetchResult : Type :=
| NetworkError (message : string)
| Response (status : N) (body : option OperationOutcome).

(** [response.ok] *)
Definition ok (status : N) : bool := ((200 <=? status) && (status <=? 299))%N.

End Fhir.

(** ** src/components/PatientObservations.jsx *)
Module PatientObservations.
Import Fhir.

(** The [{ code, value }] record a component is mapped to. *)
Record ComponentDisplay : Type := mkComponentDisplay {
  cd_code : string;
  cd_value : string }.

Record ObservationDisplay : Type := mkObservationDisplay {
  od_code : string;
  od_value : string;
  od_components : option (list ComponentDisplay) }.

(** [`${q.value}`]: an absent value renders as "undefined". *)
Definition template_value (v : option JS.Number) : string :=
  match v with
  | Some x => JS.toString x
  | None => "undefined"
  end.

(** [`${q.value} ${q.unit || ''}`] *)
Definition quantityDisplay (q : Quantity) : string :=
  template_value (q_value q) ++ " " ++ JS.or_else (q_unit q) "".

(** The value chain shared by an Observation and its components:
    valueQuantity, else valueString, else valueCodeableConcept, else "N/A". *)
Definition valueDisplay (vq : option Quantity) (vs : option string)
    (vc : option CodeableConcept) : string :=
  match vq with
  | Some q => quantityDisplay q
  | None =>
      if JS.truthy_opt vs then JS.or_else vs "N/A"
      else match vc with
           | Some c =>
               JS.or_else (JS.or_opt (coding0_display vc) (cc_text c)) "N/A"
           | None => "N/A"
           end
  end.

(** The callback of [obs.component.map]. *)
Definition componentDisplay (comp : Component) : ComponentDisplay :=
  let compCode :=
    JS.or_else (JS.or_opt (coding0_display (cmp_code comp))
                          (text_of (cmp_code comp))) "Unknown" in
  let compValue :=
    valueDisplay (cmp_valueQuantity comp) (cmp_valueString comp)
                 (cmp_valueCodeableConcept comp) in
  mkComponentDisplay compCode compValue.

Definition getObservationDisplay (obs : Observation) : ObservationDisplay :=
  let code :=
    JS.or_else (JS.or_opt (coding0_display (obs_code obs))
                          (text_of (obs_code obs))) "Unknown" in
  match obs_component obs with
  | Some (c :: cs) =>
      let components := map componentDisplay (c :: cs) in
      let value :=
        match components with
        | [c0; c1] =>
            if JS.includes (JS.toLowerCase code) "blood pressure"
            then cd_value c0 ++ "/" ++ cd_value c1
            else JS.join ", "
                   (map (fun c => cd_code c ++ ": " ++ cd_value c) components)
        | _ => JS.join ", "
                 (map (fun c => cd_code c ++ ": " ++ cd_value c) components)
        end in
      mkObservationDisplay code value (Some components)
  | _ =>
      mkObservationDisplay code
        (valueDisplay (obs_valueQuantity obs) (obs_valueString obs)
                      (obs_valueCodeableConcept obs))
        None
  end.

(** [obs.category?.[0]?.coding?.[0]?.code] *)
Definition categoryCode (obs : Observation) : option string :=
  match obs_category obs with
  | Some (c :: _) => coding0_code (Some c)
  | _ => None
  end.

(** [category === 'laboratory'] *)
Definition isLabObservation (obs : Observation) : bool :=
  match categoryCode obs with
  | Some c => (c =? "laboratory")%string
  | None => false
  end.

(** [category === 'vital-signs'] *)
Definition isVitalSign (obs : Observation) : bool :=
  match categoryCode obs with
  | Some c => (c =? "vital-signs")%string
  | None => false
  end.

(** The three groups the component renders, from its [observations]. *)
Definition labObservations (observations : list Observation)
    : list Observation :=
  filter isLabObservation observations.

Definition vitalSigns (observations : list Observation) : list Observation :=
  filter isVitalSign observations.

Definition otherObservations (observations : list Observation)
    : list Observation :=
  filter (fun obs => negb (isLabObservation obs) && negb (isVitalSign obs))
    observations.

End PatientObservations.

(** ** src/components/LabValueForm.jsx *)
Module LabValueForm.
Import Fhir.

Definition FHIR_BASE_URL : string := "https://hapi.fhir.org/baseR4".
Definition ORGANIZATION_ID : string := "53655767".

Record FormData : Type := mkFormData {
  gfr : string;
  hemoglobin : string;
  effectiveDateTime : string }.

(** The display name stamped on [subject]. *)
Definition subjectDisplay (patient : Patient) : string :=
  match pat_name patient with
  | Some (n0 :: _) =>
      JS.trim
        (JS.or_else (option_map (JS.join " ") (hn_given n0)) "" ++ " " ++
         JS.or_else (hn_family n0) "")
  | _ => "Unknown"
  end.

(** The name shown in the form's header. *)
Definition formatPatientName (patient : Patient) : string :=
  match pat_name patient with
  | None => "Unknown"
  | Some [] => "Unknown"
  | Some (first :: _) =>
      let given := match hn_given first with
                   | Some g => JS.join " " g
                   | None => ""
                   end in
      let family := JS.or_else (hn_family first) "" in
      JS.or_else (Some (JS.trim (given ++ " " ++ family))) "Unknown"
  end.

Section Form.
Variable patient : Patient.
Variable formData : FormData.

Definition createObservation (code display : string) (value : JS.Number)
    (unit unitSystem : string) : Observation :=
  {| obs_resourceType := "Observation";
     obs_status := Some "final";
     obs_category := Some
       [ {| cc_coding := Some
              [ {| coding_system := Some
                     "http://terminology.hl7.org/CodeSystem/observation-category";
                   coding_code := Some "laboratory";
                   coding_display := Some "Laboratory" |} ];
            cc_text := Some "Laboratory" |} ];
     obs_code := Some
       {| cc_coding := Some
            [ {| coding_system := Some "http://loinc.org";
                 coding_code := Some code;
                 coding_display := Some display |} ];
          cc_text := Some display |};
     obs_subject := Some
       {| ref_reference := Some ("Patient/" ++ pat_id patient);
          ref_display := Some (subjectDisplay patient) |};
     obs_effectiveDateTime := Some (effectiveDateTime formData);
     obs_component := None;
     obs_valueQuantity := Some
       {| q_value := Some (JS.parseFloat_num value);
          q_unit := Some unit;
          q_system := Some unitSystem;
          q_code := Some unit |};
     obs_valueString := None;
     obs_valueCodeableConcept := None;
     obs_performer := Some
       [ {| ref_reference := Some ("Organization/" ++ ORGANIZATION_ID);
            ref_display := Some "Demo General Hospital" |} ] |}.

(** A POST issued by [fetch]; the body is the resource handed to
    [JSON.stringify]. *)
Record Request : Type := mkRequest {
  req_method : string;
  req_url : string;
  req_contentType : string;
  req_body : Observation }.

Definition post (obs : Observation) : Request :=
  {| req_method := "POST";
     req_url := FHIR_BASE_URL ++ "/Observation";
     req_contentType := "application/fhir+json";
     req_body := obs |}.

(** What one run of [handleSubmit] leaves behind: the [observations] array
    as it stood when the handler finished, the requests handed to [fetch],
    and the message passed to [setError] ([Normal] when [setSuccess(true)]
    was reached). *)
Record Run : Type := mkRun {
  observations : list Observation;
  requests : list Request;
  outcome : JS.Completion unit }.

(** [formData.x && formData.x.trim() !== ''] *)
Definition provided (s : string) : bool :=
  JS.truthy s && negb (JS.trim s =? "")%string.

(** The first rejection among the fetches, if any: what [Promise.all]
    rejects with (taken in array order). *)
Fixpoint first_rejection (rs : list FetchResult) : option string :=
  match rs with
  | NetworkError m :: _ => Some m
  | Response _ _ :: rs' => first_rejection rs'
  | [] => None
  end.

(** The error-collecting loop over [results]. *)
Fixpoint collect_errors (obs : list Observation) (rs : list FetchResult)
    : list string :=
  match obs, rs with
  | o :: obs', Response status body :: rs' =>
      if negb (ok status)
      then ("Failed to create " ++ JS.template (text_of (obs_code o))
            ++ ": " ++ JS.N_to_string status ++ " "
            ++ JS.or_else (issue0_diagnostics body) "")
           :: collect_errors obs' rs'
      else collect_errors obs' rs'
  | _ :: obs', NetworkError _ :: rs' => collect_errors obs' rs'
  | _, _ => []
  end.

(** The part of [handleSubmit] after validation. *)
Definition submit (fetch : Request -> FetchResult) (obs : list Observation)
    : Run :=
  match obs with
  | [] => mkRun obs [] (JS.Throw "Please enter at least one lab value")
  | _ =>
      let reqs := map post obs in
      let results := map fetch reqs in
      match first_rejection results with
      | Some m => mkRun obs reqs (JS.Throw m)
      | None =>
          match collect_errors obs results with
          | [] => mkRun obs reqs (JS.Normal tt)
          | errors => mkRun obs reqs (JS.Throw (JS.join "; " errors))
          end
      end
  end.

Definition handleSubmit (fetch : Request -> FetchResult) : Run :=
  let observations0 : list Observation := [] in
  (* Create GFR observation if provided *)
  let step1 : JS.Completion (list Observation) :=
    if provided (gfr formData) then
      let gfrValue := JS.parseFloat (gfr formData) in
      if JS.isNaN gfrValue || JS.lt_zero gfrValue
      then JS.Throw "GFR must be a valid positive number"
      else JS.Normal
             (observations0 ++
              [createObservation "33914-3"
                 "Glomerular filtration rate/1.73 sq M.predicted"
                 gfrValue "mL/min/1.73m2" "http://unitsofmeasure.org"])%list
    else JS.Normal observations0 in
  match step1 with
  | JS.Throw m => mkRun observations0 [] (JS.Throw m)
  | JS.Normal observations1 =>
      (* Create Hemoglobin observation if provided *)
      if provided (hemoglobin formData) then
        let hgbValue := JS.parseFloat (hemoglobin formData) in
        if JS.isNaN hgbValue || JS.lt_zero hgbValue
        then mkRun observations1 []
               (JS.Throw "Hemoglobin must be a valid positive number")
        else submit fetch
               (observations1 ++
                [createObservation "718-7" "Hemoglobin [Mass/volume] in Blood"
                   hgbValue "g/dL" "http://unitsofmeasure.org"])%list
      else submit fetch observations1
  end.

End Form.
End LabValueForm.

(** ** src/components/ConsultationForm.jsx *)
Module ConsultationForm.
Import Fhir.

Definition FHIR_BASE_URL : string := "https://hapi.fhir.org/baseR4".
Definition ORGANIZATION_ID : string := "53655767".

Record FormData : Type := mkFormData {
  date : string;
  chiefComplaint : string;
  historyOfPresentIllness : string;
  physicalExamination : string;
  assessment : string;
  plan : string;
  notes : string }.

Definition subjectDisplay (patient : Patient) : string :=
  match pat_name patient with
  | Some (n0 :: _) =>
      JS.trim
        (JS.or_else (option_map (JS.join " ") (hn_given n0)) "" ++ " " ++
         JS.or_else (hn_family n0) "")
  | _ => "Unknown"
  end.

(** The object pushed for one section body. *)
Definition section (title code display body : string) : Section :=
  {| sec_title := title;
     sec_code :=
       {| cc_coding := Some
            [ {| coding_system := Some "http://loinc.org";
                 coding_code := Some code;
                 coding_display := Some display |} ];
          cc_text := None |};
     sec_text :=
       {| nar_status := "generated";
          nar_div := "<div xmlns=" ++ JS.dquote
                     ++ "http://www.w3.org/1999/xhtml" ++ JS.dquote ++ ">"
                     ++ body ++ "</div>" |} |}.

(** [if (body) sections.push(...)] *)
Definition push_if (body : string) (s : Section) (sections : list Section)
    : list Section :=
  if JS.truthy body then (sections ++ [s])%list else sections.

(** The name shown in the form's header. *)
Definition formatPatientName (patient : Patient) : string :=
  match pat_name patient with
  | None => "Unknown"
  | Some [] => "Unknown"
  | Some (first :: _) =>
      let given := match hn_given first with
                   | Some g => JS.join " " g
                   | None => ""
                   end in
      let family := JS.or_else (hn_family first) "" in
      JS.or_else (Some (JS.trim (given ++ " " ++ family))) "Unknown"
  end.

Section Form.
Variable patient : Patient.
Variable formData : FormData.

Definition sections : list Section :=
  let s0 : list Section := [] in
  let s1 := push_if (chiefComplaint formData)
              (section "Chief Complaint" "10154-3" "Chief complaint"
                 (chiefComplaint formData)) s0 in
  let s2 := push_if (historyOfPresentIllness formData)
              (section "History of Present Illness" "10164-2"
                 "History of present illness"
                 (historyOfPresentIllness formData)) s1 in
  let s3 := push_if (physicalExamination formData)
              (section "Physical Examination" "29545-1" "Physical examination"
                 (physicalExamination formData)) s2 in
  let s4 := push_if (assessment formData)
              (section "Assessment" "51848-0" "Assessment"
                 (assessment formData)) s3 in
  let s5 := push_if (plan formData)
              (section "Plan" "18776-5" "Plan" (plan formData)) s4 in
  push_if (notes formData)
    (section "Additional Notes" "11506-3" "Progress note" (notes formData)) s5.

Definition createComposition : Composition :=
  {| cmpn_resourceType := "Composition";
     cmpn_status := "final";
     cmpn_type :=
       {| cc_coding := Some
            [ {| coding_system := Some "http://loinc.org";
                 coding_code := Some "11506-3";
                 coding_display := Some "Progress note" |} ];
          cc_text := Some "Cardiology Consultation Report" |};
     cmpn_category :=
       [ {| cc_coding := Some
              [ {| coding_system := Some "http://snomed.info/sct";
                   coding_code := Some "308335008";
                   coding_display := Some "Patient consultation" |} ];
            cc_text := Some "Consultation" |} ];
     cmpn_subject :=
       {| ref_reference := Some ("Patient/" ++ pat_id patient);
          ref_display := Some (subjectDisplay patient) |};
     cmpn_date := date formData;
     cmpn_author :=
       [ {| ref_reference := Some ("Organization/" ++ ORGANIZATION_ID);
            ref_display :=
              Some "Demo General Hospital - Cardiology Department" |} ];
     cmpn_title := "Cardiology Consultation Report";
     cmpn_section := sections |}.

Record Request : Type := mkRequest {
  req_method : string;
  req_url : string;
  req_contentType : string;
  req_body : Composition }.

Definition post (c : Composition) : Request :=
  {| req_method := "POST";
     req_url := FHIR_BASE_URL ++ "/Composition";
     req_contentType := "application/fhir+json";
     req_body := c |}.

(** What one run of [handleSubmit] leaves behind: the requests handed to
    [fetch] and the message passed to [setError] ([Normal] when
    [setSuccess(true)] was reached). *)
Record Run : Type := mkRun {
  requests : list Request;
  outcome : JS.Completion unit }.

Definition handleSubmit (fetch : Request -> FetchResult) : Run :=
  (* Validate that at least some content is provided *)
  if negb (JS.truthy (chiefComplaint formData))
     && negb (JS.truthy (assessment formData))
     && negb (JS.truthy (plan formData))
  then mkRun []
         (JS.Throw "Please provide at least Chief Complaint, Assessment, or Plan")
  else
    let composition := createComposition in
    if (List.length (cmpn_section composition) =? 0)%nat
    then mkRun []
           (JS.Throw
              "Please provide at least one section of the consultation report")
    else
      match fetch (post composition) with
      | NetworkError m => mkRun [post composition] (JS.Throw m)
      | Response status body =>
          if negb (ok status)
          then mkRun [post composition]
                 (JS.Throw ("Failed to create consultation report: "
                            ++ JS.N_to_string status ++ " "
                            ++ JS.or_else (issue0_diagnostics body) ""))
          else mkRun [post composition] (JS.Normal tt)
      end.

End Form.
End ConsultationForm.

(** ** src/components/PatientMedications.jsx *)
Module PatientMedications.
Import Fhir.

Record Repeat : Type := mkRepeat {
  frequency : option JS.Number;
  periodUnit : option string }.

Record Timing : Type := mkTiming {
  repeat : option Repeat }.

Record Dosage : Type := mkDosage {
  dosage_text : option string;
  timing : option Timing }.

Record MedicationRequest : Type := mkMedicationRequest {
  medicationCodeableConcept : option CodeableConcept;
  status : option string;
  intent : option string;
  dosageInstruction : option (list Dosage) }.

Record MedicationDisplay : Type := mkMedicationDisplay {
  md_name : string;
  md_status : string;
  md_intent : string;
  md_dosage : string }.

(** [medication.dosageInstruction?.[0]] *)
Definition dosage0 (m : MedicationRequest) : option Dosage :=
  match dosageInstruction m with
  | Some (d :: _) => Some d
  | _ => None
  end.

(** The condition of the conditional expression, which JavaScript groups as
    [(d0?.text || d0?.timing?.repeat) ? ... : ...]: truthy when the text is
    a non-empty string or the repeat object is there. *)
Definition dosage_condition (m : MedicationRequest) : bool :=
  match dosage0 m with
  | Some d =>
      JS.truthy_opt (dosage_text d) ||
      match timing d with
      | Some t => match repeat t with Some _ => true | None => false end
      | None => false
      end
  | None => false
  end.

(** [`${r.frequency || 1}x per ${r.periodUnit || 'day'}`] *)
Definition frequencyDosage (r : Repeat) : string :=
  JS.toString
    (match frequency r with
     | Some f => if JS.truthy_num f then f else JS.Finite false "1" 1
     | None => JS.Finite false "1" 1
     end)
  ++ "x per " ++ JS.or_else (periodUnit r) "day".

(** The true branch reads [medication.dosageInstruction[0].timing.repeat]
    without optional chaining, so it throws when one link is missing. *)
Definition dosage (m : MedicationRequest) : JS.Completion string :=
  if dosage_condition m then
    match dosage0 m with
    | Some d =>
        match timing d with
        | Some t =>
            match repeat t with
            | Some r => JS.Normal (frequencyDosage r)
            | None =>
                JS.Throw
                  "Cannot read properties of undefined (reading 'frequency')"
            end
        | None =>
            JS.Throw "Cannot read properties of undefined (reading 'repeat')"
        end
    | None => JS.Throw "Cannot read properties of undefined (reading 'timing')"
    end
  else JS.Normal "As directed".

Definition getMedicationDisplay (medication : MedicationRequest)
    : JS.Completion MedicationDisplay :=
  let name :=
    JS.or_else
      (JS.or_opt (coding0_display (medicationCodeableConcept medication))
                 (text_of (medicationCodeableConcept medication)))
      "Unknown medication" in
  let status := JS.or_else (status medication) "unknown" in
  let intent := JS.or_else (intent medication) "unknown" in
  match dosage medication with
  | JS.Normal d => JS.Normal (mkMedicationDisplay name status intent d)
  | JS.Throw e => JS.Throw e
  end.

End PatientMedications.

(** ** src/components/PatientList.jsx *)
Module PatientList.

(** The host's [Date]: [Date.parse] on a string (the time value in
    milliseconds since the epoch, [None] for NaN) and the en-US rendering of
    a time value with [{ year: 'numeric', month: 'short', day: 'numeric' }]
    in the host's time zone. *)
Record DateHost : Type := mkDateHost {
  parse : string -> option Z;
  render_en_US : Z -> string }.

(** *** The patient list and its loading *)

Definition FHIR_BASE_URL : string := "https://hapi.fhir.org/baseR4".
Definition ORGANIZATION_ID : string := "53655767".

Definition formatName (name : option (list Fhir.HumanName)) : string :=
  match name with
  | None => "Unknown"
  | Some [] => "Unknown"
  | Some (first :: _) =>
      let given := match Fhir.hn_given first with
                   | Some g => JS.join " " g
                   | None => ""
                   end in
      let family := JS.or_else (Fhir.hn_family first) "" in
      JS.or_else (Some (JS.trim (given ++ " " ++ family))) "Unknown"
  end.

(** A search response body, once parsed: [entry], when there, holds for
    each entry its [resource] ([None] when the entry has none). *)
Record Bundle : Type := mkBundle {
  entry : option (list (option Fhir.Patient)) }.

(** What [fetch] resolves or rejects with; the body is [None] when
    [response.json()] rejects. *)
Inductive FetchResult : Type :=
| NetworkError (message : string)
| Response (status : N) (body : option Bundle).




Section Host.
Variable host : DateHost.

(** [new Date(dateString)] on a string never throws: an unrecognised string
    gives an Invalid Date, whose time value is NaN. *)
Definition newDate (dateString : string) : JS.Completion (option Z) :=
  JS.Normal (parse host dateString).

(** [date.toLocaleDateString('en-US', {...})] returns "Invalid Date" when
    the time value is NaN. *)
Definition toLocaleDateString (date : option Z) : JS.Completion string :=
  match date with
  | Some t => JS.Normal (render_en_US host t)
  | None => JS.Normal "Invalid Date"
  end.

Definition formatDate (dateString : option string) : string :=
  match dateString with
  | None => "N/A"
  | Some s =>
      if negb (JS.truthy s) then "N/A"
      else
        (* try { ... } catch { return dateString } *)
        match newDate s with
        | JS.Normal date =>
            match toLocaleDateString date with
            | JS.Normal r => r
            | JS.Throw _ => s
            end
        | JS.Throw _ => s
        end
  end.

End Host.

(** *** A concrete host: the UTC time zone, accepting the ECMAScript
    date-time string format [YYYY-MM-DD] with an optional
    [THH:mm[:ss[.sss]]] and an optional [Z]. *)

(** Exactly [n] decimal digits at the head of [s]. *)
Fixpoint fixed_digits (n : nat) (acc : Z) (s : string) : option (Z * string) :=
  match n with
  | O => Some (acc, s)
  | S n' =>
      match s with
      | String c s' =>
          if JS.is_digit c
          then fixed_digits n' (acc * 10 + Z.of_nat (nat_of_ascii c - 48)) s'
          else None
      | EmptyString => None
      end
  end.

Definition expect (c : ascii) (s : string) : option string :=
  match s with
  | String d s' => if Ascii.eqb c d then Some s' else None
  | EmptyString => None
  end.

Definition isLeap (y : Z) : bool :=
  ((y mod 4 =? 0) && (negb (y mod 100 =? 0) || (y mod 400 =? 0)))%Z.

Definition daysInMonth (y m : Z) : Z :=
  if (m =? 2)%Z then (if isLeap y then 29 else 28)%Z
  else if ((m =? 4) || (m =? 6) || (m =? 9) || (m =? 11))%Z then 30%Z
  else 31%Z.

(** Days since 1970-01-01 of a proleptic Gregorian date. *)
Definition daysFromCivil (y m d : Z) : Z :=
  let y' := (if m <=? 2 then y - 1 else y)%Z in
  let era := (y' / 400)%Z in
  let yoe := (y' - era * 400)%Z in
  let doy := ((153 * (if 2 <? m then m - 3 else m + 9) + 2) / 5 + d - 1)%Z in
  let doe := (yoe * 365 + yoe / 4 - yoe / 100 + doy)%Z in
  (era * 146097 + doe - 719468)%Z.

(** The inverse: year, month and day of a day number. *)
Definition civilFromDays (z0 : Z) : Z * Z * Z :=
  let z := (z0 + 719468)%Z in
  let era := (z / 146097)%Z in
  let doe := (z - era * 146097)%Z in
  let yoe := ((doe - doe / 1460 + doe / 36524 - doe / 146096) / 365)%Z in
  let doy := (doe - (365 * yoe + yoe / 4 - yoe / 100))%Z in
  let mp := ((5 * doy + 2) / 153)%Z in
  let d := (doy - (153 * mp + 2) / 5 + 1)%Z in
  let m := (if mp <? 10 then mp + 3 else mp - 9)%Z in
  ((if m <=? 2 then yoe + era * 400 + 1 else yoe + era * 400)%Z, m, d).

(** The optional time of day, in milliseconds. *)
Definition parseTime (s : string) : option Z :=
  match s with
  | EmptyString => Some 0%Z
  | String "T" s1 =>
      match fixed_digits 2 0 s1 with
      | Some (hh, s2) =>
          match expect ":" s2 with
          | Some s3 =>
              match fixed_digits 2 0 s3 with
              | Some (mi, s4) =>
                  let '(ss, s6) :=
                    match expect ":" s4 with
                    | Some s5 =>
                        match fixed_digits 2 0 s5 with
                        | Some r => r
                        | None => ((-1)%Z, s4)
                        end
                    | None => (0%Z, s4)
                    end in
                  let '(ms, s8) :=
                    match expect "." s6 with
                    | Some s7 =>
                        match fixed_digits 3 0 s7 with
                        | Some r => r
                        | None => ((-1)%Z, s6)
                        end
                    | None => (0%Z, s6)
                    end in
                  let rest := match expect "Z" s8 with
                              | Some r => r
                              | None => s8
                              end in
                  if ((rest =? "")%string && (hh <=? 23) && (mi <=? 59)
                      && (0 <=? ss) && (ss <=? 59) && (0 <=? ms))%Z
                  then Some (((hh * 60 + mi) * 60 + ss) * 1000 + ms)%Z
                  else None
              | None => None
              end
          | None => None
          end
      | None => None
      end
  | _ => None
  end.

Definition parseISO (s : string) : option Z :=
  match fixed_digits 4 0 s with
  | Some (y, s1) =>
      match expect "-" s1 with
      | Some s2 =>
          match fixed_digits 2 0 s2 with
          | Some (m, s3) =>
              match expect "-" s3 with
              | Some s4 =>
                  match fixed_digits 2 0 s4 with
                  | Some (d, s5) =>
                      if ((1 <=? m) && (m <=? 12) && (1 <=? d)
                          && (d <=? daysInMonth y m))%Z
                      then option_map
                             (fun t => (daysFromCivil y m d * 86400000 + t)%Z)
                             (parseTime s5)
                      else None
                  | None => None
                  end
              | None => None
              end
          | None => None
          end
      | None => None
      end
  | None => None
  end.

Definition monthShort (m : Z) : string :=
  nth (Z.to_nat (m - 1))
    ["Jan"; "Feb"; "Mar"; "Apr"; "May"; "Jun";
     "Jul"; "Aug"; "Sep"; "Oct"; "Nov"; "Dec"] "".

Definition renderUTC (t : Z) : string :=
  let '(y, m, d) := civilFromDays (t / 86400000)%Z in
  monthShort m ++ " " ++ JS.N_to_string (Z.to_N d) ++ ", "
  ++ JS.N_to_string (Z.to_N y).

Definition utcHost : DateHost :=
  {| parse := parseISO; render_en_US := renderUTC |}.

End PatientList.

(** ** src/components/PatientConsultations.jsx *)
Module PatientConsultations.

(** [[^>]*>]: skip to the first [>]; what follows it. *)
Fixpoint after_gt (s : string) : option string :=
  match s with
  | String c s' => if Ascii.eqb c ">" then Some s' else after_gt s'
  | EmptyString => None
  end.

(** [(.*?)<\/div>] with the [s] flag: the text before the first "</div>". *)
Fixpoint before_close (s : string) : option string :=
  if prefix "</div>" s then Some EmptyString
  else match s with
       | String c s' => option_map (String c) (before_close s')
       | EmptyString => None
       end.

(** The pattern [/<div[^>]*>(.*?)<\/div>/s] tried at the head of [s]: the
    text of its group. *)
Definition match_here (s : string) : option string :=
  if prefix "<div" s
  then match after_gt (JS.drop 4 s) with
       | Some r => before_close r
       | None => None
       end
  else None.

(** [divString.match(...)]: the leftmost match; the text of its group. *)
Fixpoint regex_match (s : string) : option string :=
  match match_here s with
  | Some g => Some g
  | None =>
      match s with
      | String _ s' => regex_match s'
      | EmptyString => None
      end
  end.

Definition extractTextFromDiv (divString : string) : string :=
  if negb (JS.truthy divString) then ""
  else match regex_match divString with
       | Some g => JS.trim g
       | None => divString
       end.

End PatientConsultations.

(** ** scripts/insert-john-doe-history.js: the cleanup phase *)
Module SeedScript.

Definition FHIR_BASE_URL : string := "https://hapi.fhir.org/baseR4".
Definition ORGANIZATION_ID : string := "53655767".

(** The requests the cleanup phase hands to [fetch]: a search
    [GET {base}/{type}?{param}={value}&_count=1000] or a
    [DELETE {base}/{type}/{id}], with [?_cascade=delete] when asked. *)
Inductive Request : Type :=
| Search (resourceType param value : string)
| Delete (resourceType id : string) (cascade : bool).


Record Resource : Type := mkResource {
  res_id : option string }.

Record Entry : Type := mkEntry {
  resource : option Resource }.

(** A search response body, once parsed. *)
Record Bundle : Type := mkBundle {
  entry : option (list Entry) }.

(** What [fetch] resolves or rejects with; the body is [None] when
    [response.json()] rejects. *)
Inductive FetchResult : Type :=
| NetworkError (message : string)
| Response (status : N) (body : option Bundle).

Definition ok (status : N) : bool := ((200 <=? status) && (status <=? 299))%N.

(** *** Steps 6 and 7: the resources the script creates for the forms'
    resource types *)

Record Reading : Type := mkReading {
  yearsAgo : string;
  systolic : N;
  diastolic : N }.

Definition bpReadings : list Reading :=
  [ mkReading "6" 200 110; mkReading "5.5" 195 108; mkReading "5" 205 112;
    mkReading "4.5" 198 109; mkReading "4" 200 110; mkReading "3.5" 202 111;
    mkReading "3" 198 108; mkReading "2.5" 200 110; mkReading "2" 195 109;
    mkReading "1.5" 200 110; mkReading "1" 198 108; mkReading "0.5" 200 110 ].

Record Consultation : Type := mkConsultation {
  c_yearsAgo : string;
  c_chiefComplaint : string;
  c_history : string;
  c_physicalExam : string;
  c_assessment : string;
  c_plan : string }.

Section Creation.
(** [createdPatient.id] and the clock-dependent [getDateTimeYearsAgo]. *)
Variable patientId : string.
Variable getDateTimeYearsAgo : string -> string.

Definition bpComponent (code display : string) (value : N) : Fhir.Component :=
  {| Fhir.cmp_code := Some
       {| Fhir.cc_coding := Some
            [ {| Fhir.coding_system := Some "http://loinc.org";
                 Fhir.coding_code := Some code;
                 Fhir.coding_display := Some display |} ];
          Fhir.cc_text := None |};
     Fhir.cmp_valueQuantity := Some
       {| Fhir.q_value := Some (JS.fromN value);
          Fhir.q_unit := Some "mmHg";
          Fhir.q_system := Some "http://unitsofmeasure.org";
          Fhir.q_code := Some "mm[Hg]" |};
     Fhir.cmp_valueString := None;
     Fhir.cmp_valueCodeableConcept := None |}.

Definition bpObservation (reading : Reading) : Fhir.Observation :=
  {| Fhir.obs_resourceType := "Observation";
     Fhir.obs_status := Some "final";
     Fhir.obs_category := Some
       [ {| Fhir.cc_coding := Some
              [ {| Fhir.coding_system := Some
                     "http://terminology.hl7.org/CodeSystem/observation-category";
                   Fhir.coding_code := Some "vital-signs";
                   Fhir.coding_display := Some "Vital Signs" |} ];
            Fhir.cc_text := None |} ];
     Fhir.obs_code := Some
       {| Fhir.cc_coding := Some
            [ {| Fhir.coding_system := Some "http://loinc.org";
                 Fhir.coding_code := Some "85354-9";
                 Fhir.coding_display := Some
                   "Blood pressure panel with all children optional" |} ];
          Fhir.cc_text := None |};
     Fhir.obs_subject := Some
       {| Fhir.ref_reference := Some ("Patient/" ++ patientId);
          Fhir.ref_display := Some "John Doe" |};
     Fhir.obs_effectiveDateTime := Some (getDateTimeYearsAgo (yearsAgo reading));
     Fhir.obs_component := Some
       [ bpComponent "8480-6" "Systolic blood pressure" (systolic reading);
         bpComponent "8462-4" "Diastolic blood pressure" (diastolic reading) ];
     Fhir.obs_valueQuantity := None;
     Fhir.obs_valueString := None;
     Fhir.obs_valueCodeableConcept := None;
     Fhir.obs_performer := Some
       [ {| Fhir.ref_reference := Some ("Organization/" ++ ORGANIZATION_ID);
            Fhir.ref_display := Some "Demo General Hospital" |} ] |}.

(** The Observations handed to [createResource] in step 6. *)
Definition createdObservations : list Fhir.Observation :=
  map bpObservation bpReadings.

Definition seedSection (title code display body : string) : Fhir.Section :=
  {| Fhir.sec_title := title;
     Fhir.sec_code :=
       {| Fhir.cc_coding := Some
            [ {| Fhir.coding_system := Some "http://loinc.org";
                 Fhir.coding_code := Some code;
                 Fhir.coding_display := Some display |} ];
          Fhir.cc_text := None |};
     Fhir.sec_text :=
       {| Fhir.nar_status := "generated";
          Fhir.nar_div := "<div xmlns=" ++ JS.dquote
                          ++ "http://www.w3.org/1999/xhtml" ++ JS.dquote ++ ">"
                          ++ body ++ "</div>" |} |}.

(** The Composition handed to [createResource] in step 7 for one entry of
    [consultations]. *)
Definition composition (consult : Consultation) : Fhir.Composition :=
  {| Fhir.cmpn_resourceType := "Composition";
     Fhir.cmpn_status := "final";
     Fhir.cmpn_type :=
       {| Fhir.cc_coding := Some
            [ {| Fhir.coding_system := Some "http://loinc.org";
                 Fhir.coding_code := Some "11506-3";
                 Fhir.coding_display := Some "Progress note" |} ];
          Fhir.cc_text := Some "Cardiology Consultation Report" |};
     Fhir.cmpn_category :=
       [ {| Fhir.cc_coding := Some
              [ {| Fhir.coding_system := Some "http://snomed.info/sct";
                   Fhir.coding_code := Some "308335008";
                   Fhir.coding_display := Some "Patient consultation" |} ];
            Fhir.cc_text := Some "Consultation" |} ];
     Fhir.cmpn_subject :=
       {| Fhir.ref_reference := Some ("Patient/" ++ patientId);
          Fhir.ref_display := Some "John Doe" |};
     Fhir.cmpn_date := getDateTimeYearsAgo (c_yearsAgo consult);
     Fhir.cmpn_author :=
       [ {| Fhir.ref_reference := Some ("Organization/" ++ ORGANIZATION_ID);
            Fhir.ref_display :=
              Some "Demo General Hospital - Cardiology Department" |} ];
     Fhir.cmpn_title := "Cardiology Consultation Report";
     Fhir.cmpn_section :=
       [ seedSection "Chief Complaint" "10154-3" "Chief complaint"
           (c_chiefComplaint consult);
         seedSection "History of Present Illness" "10164-2"
           "History of present illness" (c_history consult);
         seedSection "Physical Examination" "29545-1" "Physical examination"
           (c_physicalExam consult);
         seedSection "Assessment" "51848-0" "Assessment" (c_assessment consult);
         seedSection "Plan" "18776-5" "Plan" (c_plan consult) ] |}.

End Creation.

(** The remote server: its answer to a request may depend on every request
    made before it. *)
Definition Server : Type := list Request -> Request -> FetchResult.

(** Asynchronous script code: it extends the trace of requests made so far
    and completes normally or throws.  [delay] does not show in it. *)
Definition M (A : Type) : Type :=
  list Request -> JS.Completion A * list Request.

Definition ret {A : Type} (a : A) : M A := fun h => (JS.Normal a, h).

Definition throw {A : Type} (m : string) : M A := fun h => (JS.Throw m, h).

Definition bind {A B : Type} (c : M A) (k : A -> M B) : M B :=
  fun h =>
    match c h with
    | (JS.Normal a, h') => k a h'
    | (JS.Throw m, h') => (JS.Throw m, h')
    end.

(** [try { c } catch { handler }] *)
Definition try_catch {A : Type} (c : M A) (handler : string -> M A) : M A :=
  fun h =>
    match c h with
    | (JS.Normal a, h') => (JS.Normal a, h')
    | (JS.Throw m, h') => handler m h'
    end.

Notation "x <- c ;; k" := (bind c (fun x => k))
  (at level 61, c at next level, right associativity).

(** [for (const x of l) { body }] *)
Fixpoint for_of {A : Type} (l : list A) (body : A -> M unit) : M unit :=
  match l with
  | [] => ret tt
  | x :: l' => _ <- body x ;; for_of l' body
  end.

Section Script.
Variable server : Server.

(** [await fetch(...)]: the request joins the trace; a network failure
    rejects. *)
Definition fetch (r : Request) : M (N * option Bundle) :=
  fun h =>
    match server h r with
    | NetworkError m => (JS.Throw m, (h ++ [r])%list)
    | Response status body => (JS.Normal (status, body), (h ++ [r])%list)
    end.

(** [await response.json()] *)
Definition json (body : option Bundle) : M Bundle :=
  match body with
  | Some b => ret b
  | None => throw "Unexpected token in JSON"
  end.

(** [deleteResource(resourceType, resourceId, false)] *)
Definition deleteResource_plain (resourceType resourceId : string) : M bool :=
  try_catch
    (r <- fetch (Delete resourceType resourceId false) ;;
     if negb (ok (fst r)) && negb (fst r =? 404)%N
     then ret false
     else ret true)
    (fun _ => ret false).

(** [deleteResource]: when a cascading delete fails it calls itself once
    more without cascade. *)
Definition deleteResource (resourceType resourceId : string) (cascade : bool)
    : M bool :=
  if cascade then
    try_catch
      (r <- fetch (Delete resourceType resourceId true) ;;
       if negb (ok (fst r)) && negb (fst r =? 404)%N
       then deleteResource_plain resourceType resourceId
       else ret true)
      (fun _ => ret false)
  else deleteResource_plain resourceType resourceId.

(** The loop of [deletePatientResources] over [data.entry]. *)
Fixpoint deleteEntries (resourceType : string) (cascade : bool)
    (entries : list Entry) (deleted : nat) : M nat :=
  match entries with
  | [] => ret deleted
  | e :: es =>
      match resource e with
      | Some res =>
          if JS.truthy_opt (res_id res) then
            success <- deleteResource resourceType (JS.template (res_id res))
                         cascade ;;
            deleteEntries resourceType cascade es
              (if success then S deleted else deleted)
          else deleteEntries resourceType cascade es deleted
      | None => deleteEntries resourceType cascade es deleted
      end
  end.

Definition deletePatientResources (resourceType patientId : string)
    (cascade : bool) : M nat :=
  try_catch
    (r <- fetch (Search resourceType "subject" ("Patient/" ++ patientId)) ;;
     if negb (ok (fst r)) then ret 0
     else
       data <- json (snd r) ;;
       match entry data with
       | None => ret 0
       | Some [] => ret 0
       | Some entries => deleteEntries resourceType cascade entries 0
       end)
    (fun _ => ret 0).

Definition resourceTypes : list string :=
  [ "DiagnosticReport";
    "ServiceRequest";
    "MedicationRequest";
    "Procedure";
    "Composition";
    "Observation";
    "Condition" ].

(** [['Condition', 'Procedure'].includes(resourceType)] *)
Definition useCascade (resourceType : string) : bool :=
  existsb (String.eqb resourceType) ["Condition"; "Procedure"].

(** The body of [for (const patient of patients)], for a patient object that
    is there. *)
Definition deletePatient (patient : Resource) : M unit :=
  let id := JS.template (res_id patient) in
  _ <- for_of resourceTypes
         (fun resourceType =>
            _ <- deletePatientResources resourceType id
                   (useCascade resourceType) ;;
            ret tt) ;;
  _ <- deleteResource "Patient" id true ;;
  ret tt.

Definition deleteAllPatients : M unit :=
  r <- fetch (Search "Patient" "organization"
                ("Organization/" ++ ORGANIZATION_ID)) ;;
  if negb (ok (fst r)) then ret tt
  else
    data <- json (snd r) ;;
    match entry data with
    | None => ret tt
    | Some [] => ret tt
    | Some entries =>
        let patients := map resource entries in
        for_of patients
          (fun patient =>
             match patient with
             | Some p => deletePatient p
             | None =>
                 throw "Cannot read properties of undefined (reading 'id')"
             end)
    end.

End Script.
End SeedScript.

(** ** The vocabulary of the specification *)
Module Spec.


(** A blank field: empty, or white space only. *)
Definition blank (s : string) : Prop := JS.trim s = "".




















(** The XHTML fragment wrapping a section body. *)
Definition xhtml_div (body : string) : string :=
  "<div xmlns=" ++ JS.dquote ++ "http://www.w3.org/1999/xhtml" ++ JS.dquote
  ++ ">" ++ body ++ "</div>".

(** The six section bodies of a consultation form, each with its LOINC
    code, in the order of the form. *)
Definition section_fields (fd : ConsultationForm.FormData)
    : list (string * string) :=
  [ ("10154-3", ConsultationForm.chiefComplaint fd);
    ("10164-2", ConsultationForm.historyOfPresentIllness fd);
    ("29545-1", ConsultationForm.physicalExamination fd);
    ("51848-0", ConsultationForm.assessment fd);
    ("18776-5", ConsultationForm.plan fd);
    ("11506-3", ConsultationForm.notes fd) ].

(** The LOINC code and the narrative of a section. *)
Definition section_view (s : Fhir.Section) : option string * string :=
  (Fhir.coding0_code (Some (Fhir.sec_code s)), Fhir.nar_div (Fhir.sec_text s)).

(** A submission that failed validation: an error was set and nothing was
    handed to [fetch]. *)
Definition consultation_rejected (run : ConsultationForm.Run) : Prop :=
  ConsultationForm.requests run = []
  /\ exists m, ConsultationForm.outcome run = JS.Throw m.


(** Exactly one category, whose first coding has the given code. *)
Definition single_category (o : Fhir.Observation) (code : string) : Prop :=
  exists cat, Fhir.obs_category o = Some [cat]
              /\ Fhir.coding0_code (Some cat) = Some code.

(** The references every created resource carries. *)
Definition observation_references (o : Fhir.Observation)
    (patientId : string) : Prop :=
  option_map Fhir.ref_reference (Fhir.obs_subject o)
  = Some (Some ("Patient/" ++ patientId))
  /\ option_map (map Fhir.ref_reference) (Fhir.obs_performer o)
     = Some [Some "Organization/53655767"].

Definition composition_references (c : Fhir.Composition)
    (patientId : string) : Prop :=
  Fhir.ref_reference (Fhir.cmpn_subject c) = Some ("Patient/" ++ patientId)
  /\ map Fhir.ref_reference (Fhir.cmpn_author c)
     = [Some "Organization/53655767"].

(** What the lab-value form's check refuses: [isNaN(v) || v < 0] for the
    Number [parseFloat] reads. *)
Definition refused (s : string) : bool :=
  JS.isNaN (JS.parseFloat s) || JS.lt_zero (JS.parseFloat s).

(** The two Observations the lab-value form can build. *)
Definition gfrObservation (patient : Fhir.Patient)
    (fd : LabValueForm.FormData) : Fhir.Observation :=
  LabValueForm.createObservation patient fd "33914-3"
    "Glomerular filtration rate/1.73 sq M.predicted"
    (JS.parseFloat (LabValueForm.gfr fd)) "mL/min/1.73m2"
    "http://unitsofmeasure.org".

Definition hgbObservation (patient : Fhir.Patient)
    (fd : LabValueForm.FormData) : Fhir.Observation :=
  LabValueForm.createObservation patient fd "718-7"
    "Hemoglobin [Mass/volume] in Blood"
    (JS.parseFloat (LabValueForm.hemoglobin fd)) "g/dL"
    "http://unitsofmeasure.org".

(** [[x]] when [b] holds, the empty list otherwise. *)
Definition when {A : Type} (b : bool) (x : A) : list A :=
  if b then [x] else [].



(** *** The shape of the cleanup trace *)

(** Whether a request is a cascading delete. *)
Definition cascading (r : SeedScript.Request) : bool :=
  match r with
  | SeedScript.Delete _ _ c => c
  | SeedScript.Search _ _ _ => false
  end.

(** The deletes of one resource type. *)
Definition deletes_of (rt : string) (cascade : bool)
    (seg : list SeedScript.Request) : Prop :=
  Forall (fun r => (exists id c, r = SeedScript.Delete rt id c)
                   /\ (cascading r = true -> cascade = true)) seg.

(** The requests made for one dependent resource type of one patient: the
    search for the patient's resources of that type, then deletes of that
    type only, cascading only when the type is Condition or Procedure. *)
Definition type_segment (patientId resourceType : string)
    (seg : list SeedScript.Request) : Prop :=
  exists deletes,
    seg = SeedScript.Search resourceType "subject" ("Patient/" ++ patientId)
          :: deletes
    /\ Forall (fun r => (exists id c, r = SeedScript.Delete resourceType id c)
                        /\ (cascading r = true ->
                            resourceType = "Condition"
                            \/ resourceType = "Procedure"))
              deletes.

(** The delete of the Patient itself: a cascading delete, retried once
    without cascade when it fails. *)
Definition patient_segment (patientId : string)
    (seg : list SeedScript.Request) : Prop :=
  seg = [SeedScript.Delete "Patient" patientId true]
  \/ seg = [SeedScript.Delete "Patient" patientId true;
            SeedScript.Delete "Patient" patientId false].

(** The requests made for one patient: one segment per dependent resource
    type, in the order DiagnosticReport, ServiceRequest, MedicationRequest,
    Procedure, Composition, Observation, Condition, and then the delete of
    the Patient. *)
Definition patient_trace (patientId : string)
    (tr : list SeedScript.Request) : Prop :=
  exists segs pseg,
    tr = (List.concat segs ++ pseg)%list
    /\ Forall2 (type_segment patientId)
         [ "DiagnosticReport"; "ServiceRequest"; "MedicationRequest";
           "Procedure"; "Composition"; "Observation"; "Condition" ]
         segs
    /\ patient_segment patientId pseg.

(** [l1] is [l2] with some elements left out, the order kept. *)
Inductive subsequence {A : Type} : list A -> list A -> Prop :=
| subsequence_nil : subsequence [] []
| subsequence_keep x l1 l2 :
    subsequence l1 l2 -> subsequence (x :: l1) (x :: l2)
| subsequence_skip x l1 l2 :
    subsequence l1 l2 -> subsequence l1 (x :: l2).

(** Whether a DELETE was answered as done: a 2xx status, or 404. *)
Definition delete_accepted (res : SeedScript.FetchResult) : bool :=
  match res with
  | SeedScript.Response st _ => SeedScript.ok st || (st =? 404)%N
  | SeedScript.NetworkError _ => false
  end.

(** Whether a DELETE was answered with an HTTP status other than 2xx and
    404. *)
Definition delete_refused (res : SeedScript.FetchResult) : bool :=
  match res with
  | SeedScript.Response st _ => negb (SeedScript.ok st || (st =? 404)%N)
  | SeedScript.NetworkError _ => false
  end.

(** The ids of the entries that carry a resource with a non-empty id. *)
Definition entry_ids (es : list SeedScript.Entry) : list string :=
  flat_map
    (fun e =>
       match SeedScript.resource e with
       | Some res =>
           if JS.truthy_opt (SeedScript.res_id res)
           then [JS.template (SeedScript.res_id res)]
           else []
       | None => []
       end) es.

(** The entries a search answer lists: those of a 2xx answer whose body
    parses. *)
Definition listed (res : SeedScript.FetchResult) : list SeedScript.Entry :=
  match res with
  | SeedScript.Response st (Some data) =>
      if SeedScript.ok st
      then match SeedScript.entry data with
           | Some es => es
           | None => []
           end
      else []
  | _ => []
  end.

(** The patients the cleanup loop gets through: those before the first
    entry without a resource. *)
Fixpoint processed (es : list SeedScript.Entry) : list SeedScript.Resource :=
  match es with
  | e :: es' =>
      match SeedScript.resource e with
      | Some p => p :: processed es'
      | None => []
      end
  | [] => []
  end.

(** Whether a request is a cascading delete of a Patient. *)
Definition patient_delete (r : SeedScript.Request) : bool :=
  match r with
  | SeedScript.Delete rt _ c => (rt =? "Patient")%string && c
  | SeedScript.Search _ _ _ => false
  end.

(** Whether a POST of the lab-value form was answered, and answered 2xx. *)
Definition lab_created (fetch : LabValueForm.Request -> Fhir.FetchResult)
    (r : LabValueForm.Request) : bool :=
  match fetch r with
  | Fhir.Response st _ => Fhir.ok st
  | Fhir.NetworkError _ => false
  end.

(** Whether a POST of the lab-value form was answered non-2xx. *)
Definition lab_failed (fetch : LabValueForm.Request -> Fhir.FetchResult)
    (r : LabValueForm.Request) : bool :=
  match fetch r with
  | Fhir.Response st _ => negb (Fhir.ok st)
  | Fhir.NetworkError _ => false
  end.

Definition lab_answered (fetch : LabValueForm.Request -> Fhir.FetchResult)
    (r : LabValueForm.Request) : bool :=
  match fetch r with
  | Fhir.Response _ _ => true
  | Fhir.NetworkError _ => false
  end.

(** The line of the aggregated error for one failed POST. *)
Definition lab_error_line (fetch : LabValueForm.Request -> Fhir.FetchResult)
    (r : LabValueForm.Request) : string :=
  match fetch r with
  | Fhir.Response st body =>
      "Failed to create "
      ++ JS.template (Fhir.text_of (Fhir.obs_code (LabValueForm.req_body r)))
      ++ ": " ++ JS.N_to_string st ++ " "
      ++ JS.or_else (Fhir.issue0_diagnostics body) ""
  | Fhir.NetworkError _ => ""
  end.

End Spec.

(** ** Concrete inputs used by the examples and counterexamples *)
Module Examples.



Definition john : Fhir.Patient :=
  {| Fhir.pat_id := "p1";
     Fhir.pat_name := Some
       [ {| Fhir.hn_given := Some ["John"]; Fhir.hn_family := Some "Doe" |} ] |}.

(** A consultation form whose only input is one space in the chief
    complaint. *)
Definition consultation_space : ConsultationForm.FormData :=
  {| ConsultationForm.date := "2024-01-01";
     ConsultationForm.chiefComplaint := " ";
     ConsultationForm.historyOfPresentIllness := "";
     ConsultationForm.physicalExamination := "";
     ConsultationForm.assessment := "";
     ConsultationForm.plan := "";
     ConsultationForm.notes := "" |}.

Definition consultation_stable : ConsultationForm.FormData :=
  {| ConsultationForm.date := "2024-01-01";
     ConsultationForm.chiefComplaint := "";
     ConsultationForm.historyOfPresentIllness := "";
     ConsultationForm.physicalExamination := "";
     ConsultationForm.assessment := "stable";
     ConsultationForm.plan := "";
     ConsultationForm.notes := "" |}.

Definition consultation_empty : ConsultationForm.FormData :=
  {| ConsultationForm.date := "2024-01-01";
     ConsultationForm.chiefComplaint := "";
     ConsultationForm.historyOfPresentIllness := "";
     ConsultationForm.physicalExamination := "";
     ConsultationForm.assessment := "";
     ConsultationForm.plan := "";
     ConsultationForm.notes := "" |}.

(** A server that creates every Composition. *)
Definition created_composition (_ : ConsultationForm.Request)
    : Fhir.FetchResult :=
  Fhir.Response 201 None.





Definition created_observation (_ : LabValueForm.Request)
    : Fhir.FetchResult :=
  Fhir.Response 201 None.

Definition lab (g h : string) : LabValueForm.FormData :=
  {| LabValueForm.gfr := g;
     LabValueForm.hemoglobin := h;
     LabValueForm.effectiveDateTime := "2024-01-01" |}.

Definition bundle_of (ids : list string) : SeedScript.Bundle :=
  {| SeedScript.entry := Some
       (map (fun id =>
               {| SeedScript.resource := Some
                    {| SeedScript.res_id := Some id |} |}) ids) |}.

(** A server holding one patient, p1, with one Condition, c1, whose
    cascading delete it refuses with HTTP 409. *)
Definition one_patient_server : SeedScript.Server :=
  fun _ r =>
    match r with
    | SeedScript.Search rt _ _ =>
        if (rt =? "Patient")%string
        then SeedScript.Response 200 (Some (bundle_of ["p1"]))
        else if (rt =? "Condition")%string
        then SeedScript.Response 200 (Some (bundle_of ["c1"]))
        else SeedScript.Response 200 (Some {| SeedScript.entry := None |})
    | SeedScript.Delete rt _ cascade =>
        if (rt =? "Condition")%string && cascade
        then SeedScript.Response 409 None
        else SeedScript.Response 204 None
    end.

(** What the cleanup phase asks of that server, in order. *)
Definition one_patient_trace : list SeedScript.Request :=
  [ SeedScript.Search "Patient" "organization" "Organization/53655767";
    SeedScript.Search "DiagnosticReport" "subject" "Patient/p1";
    SeedScript.Search "ServiceRequest" "subject" "Patient/p1";
    SeedScript.Search "MedicationRequest" "subject" "Patient/p1";
    SeedScript.Search "Procedure" "subject" "Patient/p1";
    SeedScript.Search "Composition" "subject" "Patient/p1";
    SeedScript.Search "Observation" "subject" "Patient/p1";
    SeedScript.Search "Condition" "subject" "Patient/p1";
    SeedScript.Delete "Condition" "c1" true;
    SeedScript.Delete "Condition" "c1" false;
    SeedScript.Delete "Patient" "p1" true ].

(** A MedicationRequest with a dosage text and no timing. *)
Definition medication_with_text : PatientMedications.MedicationRequest :=
  {| PatientMedications.medicationCodeableConcept := None;
     PatientMedications.status := Some "active";
     PatientMedications.intent := Some "order";
     PatientMedications.dosageInstruction := Some
       [ {| PatientMedications.dosage_text := Some "10 mg once daily";
            PatientMedications.timing := None |} ] |}.

(** A patient whose only name entry has neither given nor family names. *)
Definition nameless : Fhir.Patient :=
  {| Fhir.pat_id := "p2";
     Fhir.pat_name := Some
       [ {| Fhir.hn_given := None; Fhir.hn_family := None |} ] |}.

End Examples.

(* ===================================================================== *)
(** * Part II: properties *)
(* ===================================================================== *)

Arguments JS.is_digit : simpl never.
Arguments JS.isWhiteSpace : simpl never.
Arguments JS.lowerChar : simpl never.

(** ** Strings *)

Lemma append_nil_r (s : string) : s ++ "" = s.
Proof. induction s as [|c s IH]; simpl; [reflexivity | now rewrite IH]. Qed.






(** ** Substring search *)

Lemma prefix_app (t r : string) : prefix t (t ++ r) = true.
Proof.
  induction t as [|c t IH]; simpl; [now destruct r |].
  destruct (ascii_dec c c) as [_|N]; [exact IH | now elim N].
Qed.








(** ** Digits *)












(** ** Scanning a numeral *)












(** ** The Numbers the parser builds *)
















(** ** Printing a Number and reading it back *)












(** Some readings and printings. *)
Example parseFloat_examples :
  JS.parseFloat "90.0" = JS.Finite false "9" 2
  /\ JS.parseFloat " 14.50" = JS.Finite false "145" 2
  /\ JS.parseFloat "12abc" = JS.Finite false "12" 2
  /\ JS.parseFloat "-1" = JS.Finite true "1" 1
  /\ JS.parseFloat "-0" = JS.Zero true
  /\ JS.parseFloat ".5e1" = JS.Finite false "5" 1
  /\ JS.parseFloat "5e" = JS.Finite false "5" 1
  /\ JS.parseFloat "Infinity" = JS.Infinity false
  /\ JS.parseFloat "abc" = JS.NaN
  /\ JS.parseFloat "." = JS.NaN
  /\ JS.parseFloat "" = JS.NaN.
Proof. repeat split. Qed.

Example toString_examples :
  JS.toString (JS.parseFloat "14.50") = "14.5"
  /\ JS.toString (JS.parseFloat "0.000001") = "0.000001"
  /\ JS.toString (JS.parseFloat "0.0000001") = "1e-7"
  /\ JS.toString (JS.parseFloat "12e19") = "120000000000000000000"
  /\ JS.toString (JS.parseFloat "12e20") = "1.2e+21"
  /\ JS.toString (JS.parseFloat "-.00125e-7") = "-1.25e-10"
  /\ JS.toString (JS.parseFloat "-0") = "0".
Proof. repeat split. Qed.



(** ** formatDate (PatientList.jsx) *)

Lemma formatDate_absent (host : PatientList.DateHost) :
  PatientList.formatDate host None = "N/A"
  /\ PatientList.formatDate host (Some "") = "N/A".
Proof. split; reflexivity. Qed.

Lemma formatDate_valid (host : PatientList.DateHost) (s : string) (t : Z) :
  s <> "" -> PatientList.parse host s = Some t ->
  PatientList.formatDate host (Some s) = PatientList.render_en_US host t.
Proof.
  intros Hs Hp. unfold PatientList.formatDate, JS.truthy.
  destruct (String.eqb_spec s ""); [contradiction |]. simpl.
  now rewrite Hp.
Qed.

(** On any host, a string [Date.parse] does not recognise is rendered as
    "Invalid Date": the [catch] branch that would return it unchanged is
    never taken. *)
Lemma formatDate_malformed (host : PatientList.DateHost) (s : string) :
  s <> "" -> PatientList.parse host s = None ->
  PatientList.formatDate host (Some s) = "Invalid Date".
Proof.
  intros Hs Hp. unfold PatientList.formatDate, JS.truthy.
  destruct (String.eqb_spec s ""); [contradiction |]. simpl.
  now rewrite Hp.
Qed.

Example formatDate_birthDate :
  PatientList.formatDate PatientList.utcHost (Some "1955-06-15")
  = "Jun 15, 1955".
Proof. reflexivity. Qed.

Example formatDate_instant :
  PatientList.formatDate PatientList.utcHost (Some "2024-02-29T23:59:59.999Z")
  = "Feb 29, 2024".
Proof. reflexivity. Qed.

(** C1.  The date formatter is to return a malformed date string unchanged.
    On the malformed string "not-a-date" the formatter returns
    "Invalid Date" instead: [new Date] and [toLocaleDateString] do not throw
    on it, so the pass-through in the [catch] branch is not reached. *)
Theorem formatDate_malformed_not_unchanged :
  PatientList.parse PatientList.utcHost "not-a-date" = None
  /\ PatientList.formatDate PatientList.utcHost (Some "not-a-date")
     = "Invalid Date"
  /\ PatientList.formatDate PatientList.utcHost (Some "not-a-date")
     <> "not-a-date".
Proof. repeat split; discriminate. Qed.

(** ** getObservationDisplay (PatientObservations.jsx) *)



(** ** getMedicationDisplay (PatientMedications.jsx) *)




(** ** createComposition and handleSubmit (ConsultationForm.jsx) *)

Ltac split_empty :=
  repeat match goal with
         | |- context [(?s =? "")%string] =>
             destruct (String.eqb_spec s ""); [subst s |]
         | H : context [(?s =? "")%string] |- _ =>
             destruct (String.eqb_spec s ""); [subst s |]
         end.

Lemma consultation_sections_view (fd : ConsultationForm.FormData) :
  map Spec.section_view (ConsultationForm.sections fd)
  = map (fun cb => (Some (fst cb), Spec.xhtml_div (snd cb)))
        (filter (fun cb => negb (snd cb =? "")%string)
                (Spec.section_fields fd)).
Proof.
  destruct fd as [d cc hpi pe a p n].
  unfold ConsultationForm.sections, ConsultationForm.push_if, JS.truthy,
    Spec.section_fields; simpl.
  split_empty; reflexivity.
Qed.

Lemma consultation_sections_empty (fd : ConsultationForm.FormData) :
  ConsultationForm.sections fd = [] ->
  ConsultationForm.chiefComplaint fd = ""
  /\ ConsultationForm.assessment fd = "" /\ ConsultationForm.plan fd = "".
Proof.
  destruct fd as [d cc hpi pe a p n].
  unfold ConsultationForm.sections, ConsultationForm.push_if, JS.truthy; simpl.
  split_empty; simpl; intros H; try discriminate H; repeat split.
Qed.

Lemma consultation_rejected_iff (patient : Fhir.Patient)
    (fd : ConsultationForm.FormData)
    (fetch : ConsultationForm.Request -> Fhir.FetchResult) :
  Spec.consultation_rejected (ConsultationForm.handleSubmit patient fd fetch)
  <-> ConsultationForm.chiefComplaint fd = ""
      /\ ConsultationForm.assessment fd = "" /\ ConsultationForm.plan fd = "".
Proof.
  unfold Spec.consultation_rejected, ConsultationForm.handleSubmit, JS.truthy.
  split.
  - intros [Hr _]. revert Hr.
    destruct (String.eqb_spec (ConsultationForm.chiefComplaint fd) "") as [E1|N1];
      destruct (String.eqb_spec (ConsultationForm.assessment fd) "") as [E2|N2];
      destruct (String.eqb_spec (ConsultationForm.plan fd) "") as [E3|N3];
      simpl; try (intros _; repeat split; assumption);
      (destruct (ConsultationForm.sections fd) eqn:Es;
       [ apply consultation_sections_empty in Es; intros _; exact Es
       | simpl; destruct (fetch _) as [m|status body];
         [| destruct (Fhir.ok status)]; simpl; discriminate ]).
  - intros (-> & -> & ->). simpl. split; [reflexivity | eexists; reflexivity].
Qed.

Example consultation_all_blank_rejected :
  ConsultationForm.handleSubmit Examples.john Examples.consultation_empty
    Examples.created_composition
  = ConsultationForm.mkRun []
      (JS.Throw "Please provide at least Chief Complaint, Assessment, or Plan").
Proof. reflexivity. Qed.

(** C4, as stated, fails: a chief complaint of one space is a blank field,
    and so are the other five, yet a section is emitted for it and the
    submission passes validation and is POSTed. *)
Lemma consultation_blank_field_has_section :
  Forall (fun cb => Spec.blank (snd cb))
    (Spec.section_fields Examples.consultation_space)
  /\ map Spec.section_view
       (Fhir.cmpn_section
          (ConsultationForm.createComposition Examples.john
             Examples.consultation_space))
     = [(Some "10154-3", Spec.xhtml_div " ")]
  /\ ConsultationForm.handleSubmit Examples.john Examples.consultation_space
       Examples.created_composition
     = ConsultationForm.mkRun
         [ConsultationForm.post
            (ConsultationForm.createComposition Examples.john
               Examples.consultation_space)]
         (JS.Normal tt).
Proof.
  split; [| split; reflexivity].
  repeat constructor.
Qed.

(** C4, amended.  The Composition builder emits one section per non-empty
    field of the six section bodies (a field of white space only counts as
    content), in the order of the form, each tagged with its fixed LOINC
    code and wrapping the raw text in an XHTML div; submission fails
    validation, before any request, if and only if chief complaint,
    assessment and plan are all empty, which is also the case if and only if
    they are all empty or the section list is empty; given only the
    assessment "stable", exactly one section, tagged 51848-0, is produced. *)
Theorem consultation_sections_per_nonempty_field (patient : Fhir.Patient)
    (fd : ConsultationForm.FormData)
    (fetch : ConsultationForm.Request -> Fhir.FetchResult) :
  map Spec.section_view
    (Fhir.cmpn_section (ConsultationForm.createComposition patient fd))
  = map (fun cb => (Some (fst cb), Spec.xhtml_div (snd cb)))
        (filter (fun cb => negb (snd cb =? "")%string)
                (Spec.section_fields fd))
  /\ (Spec.consultation_rejected
        (ConsultationForm.handleSubmit patient fd fetch)
      <-> (ConsultationForm.chiefComplaint fd = ""
           /\ ConsultationForm.assessment fd = ""
           /\ ConsultationForm.plan fd = "")
          \/ Fhir.cmpn_section (ConsultationForm.createComposition patient fd)
             = [])
  /\ map Spec.section_view
       (Fhir.cmpn_section
          (ConsultationForm.createComposition patient
             Examples.consultation_stable))
     = [(Some "51848-0", Spec.xhtml_div "stable")].
Proof.
  split; [apply consultation_sections_view | split; [| reflexivity]].
  rewrite consultation_rejected_iff. split; [now left |].
  intros [H|H]; [exact H | now apply consultation_sections_empty].
Qed.

(** ** handleSubmit (LabValueForm.jsx) *)

Lemma submit_fields (fetch : LabValueForm.Request -> Fhir.FetchResult)
    (obs : list Fhir.Observation) :
  LabValueForm.observations (LabValueForm.submit fetch obs) = obs
  /\ LabValueForm.requests (LabValueForm.submit fetch obs)
     = match obs with
       | [] => []
       | _ => map LabValueForm.post obs
       end.
Proof.
  unfold LabValueForm.submit. destruct obs as [|o obs]; [split; reflexivity |].
  destruct (LabValueForm.first_rejection _); [split; reflexivity |].
  destruct (LabValueForm.collect_errors _ _); split; reflexivity.
Qed.

Lemma submit_requests (fetch : LabValueForm.Request -> Fhir.FetchResult)
    (obs : list Fhir.Observation) :
  LabValueForm.requests (LabValueForm.submit fetch obs)
  = map LabValueForm.post obs.
Proof.
  destruct (submit_fields fetch obs) as [_ H]. rewrite H. now destruct obs.
Qed.

(** The three ways through [handleSubmit]. *)
Lemma handleSubmit_cases (patient : Fhir.Patient)
    (fd : LabValueForm.FormData)
    (fetch : LabValueForm.Request -> Fhir.FetchResult) :
  LabValueForm.handleSubmit patient fd fetch
  = if LabValueForm.provided (LabValueForm.gfr fd)
       && Spec.refused (LabValueForm.gfr fd)
    then LabValueForm.mkRun [] []
           (JS.Throw "GFR must be a valid positive number")
    else if LabValueForm.provided (LabValueForm.hemoglobin fd)
            && Spec.refused (LabValueForm.hemoglobin fd)
    then LabValueForm.mkRun
           (Spec.when (LabValueForm.provided (LabValueForm.gfr fd))
              (Spec.gfrObservation patient fd))
           [] (JS.Throw "Hemoglobin must be a valid positive number")
    else LabValueForm.submit fetch
           (Spec.when (LabValueForm.provided (LabValueForm.gfr fd))
              (Spec.gfrObservation patient fd)
            ++ Spec.when (LabValueForm.provided (LabValueForm.hemoglobin fd))
                 (Spec.hgbObservation patient fd)).
Proof.
  unfold LabValueForm.handleSubmit, Spec.refused, Spec.when,
    Spec.gfrObservation, Spec.hgbObservation.
  destruct (LabValueForm.provided (LabValueForm.gfr fd));
    destruct (LabValueForm.provided (LabValueForm.hemoglobin fd)); simpl;
    repeat match goal with
           | |- context [JS.isNaN ?v || JS.lt_zero ?v] =>
               destruct (JS.isNaN v || JS.lt_zero v); simpl
           end; reflexivity.
Qed.

Lemma lab_requests_bodies (patient : Fhir.Patient)
    (fd : LabValueForm.FormData)
    (fetch : LabValueForm.Request -> Fhir.FetchResult)
    (r : LabValueForm.Request) :
  In r (LabValueForm.requests (LabValueForm.handleSubmit patient fd fetch)) ->
  r = LabValueForm.post (Spec.gfrObservation patient fd)
  \/ r = LabValueForm.post (Spec.hgbObservation patient fd).
Proof.
  rewrite handleSubmit_cases.
  destruct (_ && _); [intros [] |]. destruct (_ && _); [intros [] |].
  rewrite submit_requests, map_app, in_app_iff. unfold Spec.when.
  destruct (LabValueForm.provided (LabValueForm.gfr fd));
    destruct (LabValueForm.provided (LabValueForm.hemoglobin fd)); simpl;
    intuition.
Qed.

(** ** Invariants of the created resources *)

Lemma consultation_requests_bodies (patient : Fhir.Patient)
    (fd : ConsultationForm.FormData)
    (fetch : ConsultationForm.Request -> Fhir.FetchResult)
    (r : ConsultationForm.Request) :
  In r (ConsultationForm.requests
          (ConsultationForm.handleSubmit patient fd fetch)) ->
  r = ConsultationForm.post (ConsultationForm.createComposition patient fd)
  /\ ConsultationForm.sections fd <> [].
Proof.
  unfold ConsultationForm.handleSubmit.
  destruct (_ && _); [intros [] |].
  simpl Fhir.cmpn_section.
  destruct (ConsultationForm.sections fd) as [|s ss] eqn:Es; [intros [] |].
  simpl. destruct (fetch _) as [m|status body];
    [| destruct (Fhir.ok status)]; simpl;
    (intros [<-|[]]; split; [reflexivity | discriminate]).
Qed.

(** C7, as stated, fails: the seed script creates Observations whose one
    category is "vital-signs", not "laboratory". *)
Lemma seed_observation_not_laboratory :
  In (SeedScript.bpObservation "p1" (fun y => y)
        (SeedScript.mkReading "6" 200 110))
     (SeedScript.createdObservations "p1" (fun y => y))
  /\ Spec.single_category
       (SeedScript.bpObservation "p1" (fun y => y)
          (SeedScript.mkReading "6" 200 110))
       "vital-signs"
  /\ ~ Spec.single_category
         (SeedScript.bpObservation "p1" (fun y => y)
            (SeedScript.mkReading "6" 200 110))
         "laboratory".
Proof.
  split; [left; reflexivity | split].
  - eexists; split; reflexivity.
  - intros (cat & H1 & H2). simpl in H1. injection H1 as <-.
    discriminate H2.
Qed.

(** C7, amended.  Every Observation and Composition this system creates
    carries a subject reference to the target patient and a performer
    (Observation) or author (Composition) reference to the fixed
    organization id; every Observation the lab-value form creates has
    exactly one category, whose code is "laboratory", while every
    Observation the seed script creates has exactly one category, whose code
    is "vital-signs"; every created Composition has a non-empty section
    list. *)
Theorem created_resources_invariants :
  (forall patient fd fetch r,
      In r (LabValueForm.requests
              (LabValueForm.handleSubmit patient fd fetch)) ->
      Spec.observation_references (LabValueForm.req_body r)
        (Fhir.pat_id patient)
      /\ Spec.single_category (LabValueForm.req_body r) "laboratory")
  /\ (forall patient fd fetch r,
         In r (ConsultationForm.requests
                 (ConsultationForm.handleSubmit patient fd fetch)) ->
         Spec.composition_references (ConsultationForm.req_body r)
           (Fhir.pat_id patient)
         /\ Fhir.cmpn_section (ConsultationForm.req_body r) <> [])
  /\ (forall patientId clock o,
         In o (SeedScript.createdObservations patientId clock) ->
         Spec.observation_references o patientId
         /\ Spec.single_category o "vital-signs")
  /\ (forall patientId clock consult,
         Spec.composition_references
           (SeedScript.composition patientId clock consult) patientId
         /\ Fhir.cmpn_section (SeedScript.composition patientId clock consult)
            <> []).
Proof.
  repeat split.
  - destruct (lab_requests_bodies _ _ _ _ H) as [->| ->]; reflexivity.
  - destruct (lab_requests_bodies _ _ _ _ H) as [->| ->]; reflexivity.
  - destruct (lab_requests_bodies _ _ _ _ H) as [->| ->];
      eexists; split; reflexivity.
  - destruct (consultation_requests_bodies _ _ _ _ H) as [-> _]; reflexivity.
  - destruct (consultation_requests_bodies _ _ _ _ H) as [-> _]; reflexivity.
  - destruct (consultation_requests_bodies _ _ _ _ H) as [-> Hs]; exact Hs.
  - unfold SeedScript.createdObservations in H. apply in_map_iff in H.
    destruct H as (rd & <- & _). reflexivity.
  - unfold SeedScript.createdObservations in H. apply in_map_iff in H.
    destruct H as (rd & <- & _). reflexivity.
  - unfold SeedScript.createdObservations in H. apply in_map_iff in H.
    destruct H as (rd & <- & _). eexists; split; reflexivity.
  - discriminate.
Qed.

(** ** Non-2xx responses *)

Lemma or_else_empty (d : string) : JS.or_else (Some d) "" = d.
Proof.
  unfold JS.or_else, JS.truthy. now destruct (String.eqb_spec d "").
Qed.








(** ** The Observation builder *)










(** ** Validation of the lab-value form *)


Example lab_negative_rejected :
  LabValueForm.handleSubmit Examples.john (Examples.lab "-1" "")
    Examples.created_observation
  = LabValueForm.mkRun [] [] (JS.Throw "GFR must be a valid positive number").
Proof. reflexivity. Qed.

Example lab_both_blank_rejected :
  LabValueForm.handleSubmit Examples.john (Examples.lab "" "  ")
    Examples.created_observation
  = LabValueForm.mkRun [] [] (JS.Throw "Please enter at least one lab value").
Proof. reflexivity. Qed.




(** ** Building an Observation and displaying it *)





Example lab_round_trip_60_50 :
  PatientObservations.od_value
    (PatientObservations.getObservationDisplay
       (Spec.gfrObservation Examples.john (Examples.lab "60.50" "")))
  = "60.5 mL/min/1.73m2".
Proof. reflexivity. Qed.

(** ** The cleanup phase of the seed script *)

Example cleanup_one_patient :
  SeedScript.deleteAllPatients Examples.one_patient_server []
  = (JS.Normal tt, Examples.one_patient_trace).
Proof. reflexivity. Qed.

Section Cleanup.
Variable server : SeedScript.Server.

Lemma deleteResource_plain_trace (rt id : string)
    (h : list SeedScript.Request) :
  exists b, SeedScript.deleteResource_plain server rt id h
            = (JS.Normal b, h ++ [SeedScript.Delete rt id false])%list.
Proof.
  unfold SeedScript.deleteResource_plain, SeedScript.try_catch,
    SeedScript.bind, SeedScript.fetch, SeedScript.ret.
  destruct (server h (SeedScript.Delete rt id false)) as [m|st body]; simpl.
  - eexists; reflexivity.
  - destruct (negb (SeedScript.ok st) && negb (st =? 404)%N);
      eexists; reflexivity.
Qed.

Lemma deleteResource_trace (rt id : string) (cascade : bool)
    (h : list SeedScript.Request) :
  exists b seg,
    SeedScript.deleteResource server rt id cascade h
    = (JS.Normal b, h ++ seg)%list
    /\ (seg = [SeedScript.Delete rt id cascade]
        \/ (cascade = true
            /\ seg = [SeedScript.Delete rt id true;
                      SeedScript.Delete rt id false])).
Proof.
  unfold SeedScript.deleteResource. destruct cascade.
  - unfold SeedScript.try_catch, SeedScript.bind, SeedScript.fetch,
      SeedScript.ret.
    destruct (server h (SeedScript.Delete rt id true)) as [m|st body]; simpl.
    + do 2 eexists; split; [reflexivity | now left].
    + destruct (negb (SeedScript.ok st) && negb (st =? 404)%N).
      * destruct (deleteResource_plain_trace rt id
                    (h ++ [SeedScript.Delete rt id true])) as [b E].
        rewrite E. exists b, [SeedScript.Delete rt id true;
                              SeedScript.Delete rt id false].
        split; [now rewrite <- app_assoc | right; split; reflexivity].
      * do 2 eexists; split; [reflexivity | now left].
  - destruct (deleteResource_plain_trace rt id h) as [b E].
    exists b, [SeedScript.Delete rt id false]. split; [exact E | now left].
Qed.

Lemma deleteEntries_trace (rt : string) (cascade : bool)
    (es : list SeedScript.Entry) (n : nat) (h : list SeedScript.Request) :
  exists n' seg,
    SeedScript.deleteEntries server rt cascade es n h
    = (JS.Normal n', h ++ seg)%list
    /\ Spec.deletes_of rt cascade seg.
Proof.
  revert n h. induction es as [|e es IH]; intros n h.
  - exists n, []. split; [simpl; now rewrite app_nil_r | constructor].
  - simpl. destruct (SeedScript.resource e) as [res|]; [| apply IH].
    destruct (JS.truthy_opt (SeedScript.res_id res)); [| apply IH].
    unfold SeedScript.bind.
    destruct (deleteResource_trace rt (JS.template (SeedScript.res_id res))
                cascade h) as (b & seg & E & Hs).
    rewrite E.
    destruct (IH (if b then S n else n) (h ++ seg)%list)
      as (n' & seg' & E' & Hs').
    rewrite E'. exists n', (seg ++ seg')%list.
    split; [now rewrite app_assoc |].
    apply Forall_app. split; [| exact Hs'].
    destruct Hs as [->|[-> ->]]; repeat constructor;
      try (do 2 eexists; reflexivity); simpl; congruence.
Qed.

Lemma deletePatientResources_trace (rt pid : string) (cascade : bool)
    (h : list SeedScript.Request) :
  exists n seg,
    SeedScript.deletePatientResources server rt pid cascade h
    = (JS.Normal n,
       h ++ SeedScript.Search rt "subject" ("Patient/" ++ pid) :: seg)%list
    /\ Spec.deletes_of rt cascade seg.
Proof.
  unfold SeedScript.deletePatientResources, SeedScript.try_catch,
    SeedScript.bind, SeedScript.fetch, SeedScript.ret.
  set (q := SeedScript.Search rt "subject" ("Patient/" ++ pid)).
  destruct (server h q) as [m|st body]; simpl.
  { exists 0, []. split; [reflexivity | constructor]. }
  destruct (negb (SeedScript.ok st)).
  { exists 0, []. split; [reflexivity | constructor]. }
  destruct body as [data|]; simpl.
  2: { exists 0, []. split; [reflexivity | constructor]. }
  destruct (SeedScript.entry data) as [[|e es]|].
  - exists 0, []. split; [reflexivity | constructor].
  - destruct (deleteEntries_trace rt cascade (e :: es) 0 (h ++ [q])%list)
      as (n & seg & E & Hs).
    rewrite E. exists n, seg. split; [now rewrite <- app_assoc | exact Hs].
  - exists 0, []. split; [reflexivity | constructor].
Qed.

Lemma useCascade_true (rt : string) :
  SeedScript.useCascade rt = true -> rt = "Condition" \/ rt = "Procedure".
Proof.
  unfold SeedScript.useCascade. simpl.
  destruct (String.eqb_spec rt "Condition"); [now left |].
  destruct (String.eqb_spec rt "Procedure"); [now right | discriminate].
Qed.

Lemma for_of_types_trace (pid : string) (types : list string)
    (h : list SeedScript.Request) :
  exists segs,
    SeedScript.for_of types
      (fun resourceType =>
         SeedScript.bind
           (SeedScript.deletePatientResources server resourceType pid
              (SeedScript.useCascade resourceType))
           (fun _ => SeedScript.ret tt)) h
    = (JS.Normal tt, h ++ List.concat segs)%list
    /\ Forall2 (Spec.type_segment pid) types segs.
Proof.
  revert h. induction types as [|rt types IH]; intros h.
  - exists []. split; [simpl; now rewrite app_nil_r | constructor].
  - simpl. unfold SeedScript.bind at 1. unfold SeedScript.bind at 1.
    destruct (deletePatientResources_trace rt pid (SeedScript.useCascade rt) h)
      as (n & seg & E & Hs).
    rewrite E. unfold SeedScript.ret at 1.
    destruct (IH (h ++ SeedScript.Search rt "subject" ("Patient/" ++ pid)
                    :: seg)%list) as (segs & E' & Hs').
    rewrite E'.
    exists ((SeedScript.Search rt "subject" ("Patient/" ++ pid) :: seg)
            :: segs).
    split; [simpl; now rewrite <- app_assoc |].
    constructor; [| exact Hs'].
    exists seg. split; [reflexivity |].
    eapply Forall_impl; [| exact Hs]. intros r [H1 H2].
    split; [exact H1 |]. intros Hc. now apply useCascade_true, H2.
Qed.

Lemma deletePatient_trace (p : SeedScript.Resource)
    (h : list SeedScript.Request) :
  exists tr,
    SeedScript.deletePatient server p h = (JS.Normal tt, h ++ tr)%list
    /\ Spec.patient_trace (JS.template (SeedScript.res_id p)) tr.
Proof.
  unfold SeedScript.deletePatient. unfold SeedScript.bind at 1.
  destruct (for_of_types_trace (JS.template (SeedScript.res_id p))
              SeedScript.resourceTypes h) as (segs & E & Hs).
  rewrite E. unfold SeedScript.bind.
  destruct (deleteResource_trace "Patient"
              (JS.template (SeedScript.res_id p)) true
              (h ++ List.concat segs)%list) as (b & pseg & E' & Hp).
  rewrite E'. exists (List.concat segs ++ pseg)%list.
  split; [unfold SeedScript.ret; now rewrite app_assoc |].
  exists segs, pseg. split; [reflexivity | split; [exact Hs |]].
  destruct Hp as [->|[_ ->]]; [now left | now right].
Qed.


End Cleanup.





(* ===================================================================== *)
(** * Part III: further properties of the sources *)
(* ===================================================================== *)

(** ** The groups of the Observation viewer *)

Lemma filter_subsequence {A : Type} (p : A -> bool) (l : list A) :
  Spec.subsequence (filter p l) l.
Proof.
  induction l as [|x l IH]; simpl; [constructor |].
  destruct (p x); now constructor.
Qed.

Lemma filter_three_way {A : Type} (p q : A -> bool) (l : list A) :
  (forall x, p x && q x = false) ->
  Permutation
    (filter q l ++ filter p l
     ++ filter (fun x => negb (p x) && negb (q x)) l)
    l.
Proof.
  intros Hpq. induction l as [|x l IH]; simpl; [constructor |].
  specialize (Hpq x). destruct (p x), (q x); simpl in *; try discriminate.
  - apply Permutation_sym, Permutation_cons_app, Permutation_sym, IH.
  - now constructor.
  - rewrite app_assoc. apply Permutation_sym, Permutation_cons_app.
    rewrite <- app_assoc. apply Permutation_sym, IH.
Qed.

Lemma lab_vital_exclusive (o : Fhir.Observation) :
  PatientObservations.isLabObservation o && PatientObservations.isVitalSign o
  = false.
Proof.
  unfold PatientObservations.isLabObservation,
    PatientObservations.isVitalSign.
  destruct (PatientObservations.categoryCode o) as [c|]; [| reflexivity].
  destruct (String.eqb_spec c "laboratory") as [->|]; reflexivity.
Qed.

(** X1.  The three groups the Observation viewer renders (vital signs, lab
    values, others) are a partition of the fetched list: together they hold
    every Observation exactly once, each group keeps the server's order, and
    no Observation is in two groups. *)
Theorem observation_groups_partition (observations : list Fhir.Observation) :
  Permutation
    (PatientObservations.vitalSigns observations
     ++ PatientObservations.labObservations observations
     ++ PatientObservations.otherObservations observations)
    observations
  /\ Spec.subsequence (PatientObservations.vitalSigns observations)
       observations
  /\ Spec.subsequence (PatientObservations.labObservations observations)
       observations
  /\ Spec.subsequence (PatientObservations.otherObservations observations)
       observations
  /\ (forall o,
        ~ (In o (PatientObservations.vitalSigns observations)
           /\ In o (PatientObservations.labObservations observations))
        /\ ~ (In o (PatientObservations.vitalSigns observations)
              /\ In o (PatientObservations.otherObservations observations))
        /\ ~ (In o (PatientObservations.labObservations observations)
              /\ In o (PatientObservations.otherObservations observations))).
Proof.
  unfold PatientObservations.vitalSigns, PatientObservations.labObservations,
    PatientObservations.otherObservations.
  split; [apply filter_three_way, lab_vital_exclusive |].
  repeat split; try apply filter_subsequence.
  - intros [H1 H2]. apply filter_In in H1 as [_ H1], H2 as [_ H2].
    pose proof (lab_vital_exclusive o) as E. rewrite H1, H2 in E.
    discriminate E.
  - intros [H1 H2]. apply filter_In in H1 as [_ H1], H2 as [_ H2].
    rewrite H1 in H2. rewrite andb_false_r in H2. discriminate H2.
  - intros [H1 H2]. apply filter_In in H1 as [_ H1], H2 as [_ H2].
    rewrite H1 in H2. discriminate H2.
Qed.

(** X2.  An Observation the lab-value form POSTs is shown by the viewer
    under the lab values and not under the vital signs; an Observation the
    seed script creates is shown under the vital signs and not under the lab
    values. *)
Theorem created_observations_groups :
  (forall patient fd fetch r,
      In r (LabValueForm.requests
              (LabValueForm.handleSubmit patient fd fetch)) ->
      PatientObservations.labObservations [LabValueForm.req_body r]
      = [LabValueForm.req_body r]
      /\ PatientObservations.vitalSigns [LabValueForm.req_body r] = []
      /\ PatientObservations.otherObservations [LabValueForm.req_body r] = [])
  /\ (forall patientId clock o,
         In o (SeedScript.createdObservations patientId clock) ->
         PatientObservations.vitalSigns [o] = [o]
         /\ PatientObservations.labObservations [o] = []
         /\ PatientObservations.otherObservations [o] = []).
Proof.
  split.
  - intros patient fd fetch r H.
    destruct (lab_requests_bodies _ _ _ _ H) as [->| ->];
      repeat split; reflexivity.
  - intros patientId clock o H.
    unfold SeedScript.createdObservations in H. apply in_map_iff in H.
    destruct H as (rd & <- & _). repeat split; reflexivity.
Qed.

(** ** What the Observation viewer shows is never empty *)

Lemma or_else_nonempty (o : option string) (d : string) :
  d <> "" -> JS.or_else o d <> "".
Proof.
  intros Hd. unfold JS.or_else, JS.truthy. destruct o as [s|]; [| exact Hd].
  destruct (String.eqb_spec s ""); simpl; assumption.
Qed.

Lemma append_nonempty_r (a b : string) : b <> "" -> a ++ b <> "".
Proof. destruct a; simpl; [trivial | discriminate]. Qed.

Lemma valueDisplay_nonempty (vq : option Fhir.Quantity) (vs : option string)
    (vc : option Fhir.CodeableConcept) :
  PatientObservations.valueDisplay vq vs vc <> "".
Proof.
  unfold PatientObservations.valueDisplay.
  destruct vq as [q|].
  - unfold PatientObservations.quantityDisplay.
    apply append_nonempty_r. discriminate.
  - destruct (JS.truthy_opt vs); [now apply or_else_nonempty |].
    destruct vc; [now apply or_else_nonempty | discriminate].
Qed.

Lemma join_nonempty (sep x : string) (l : list string) :
  x <> "" -> JS.join sep (x :: l) <> "".
Proof.
  intros Hx. unfold JS.join. simpl. destruct l; [exact Hx |].
  destruct x; [congruence | discriminate].
Qed.

(** X3.  Whatever Observation the server sends, the viewer shows a
    non-empty code and a non-empty value for it. *)
Theorem observation_display_nonempty (obs : Fhir.Observation) :
  PatientObservations.od_code (PatientObservations.getObservationDisplay obs)
  <> ""
  /\ PatientObservations.od_value
       (PatientObservations.getObservationDisplay obs) <> "".
Proof.
  unfold PatientObservations.getObservationDisplay.
  assert (Hpair : forall cs,
             JS.join ", "
               (map (fun c => PatientObservations.cd_code c ++ ": "
                              ++ PatientObservations.cd_value c)
                    (map PatientObservations.componentDisplay cs)) <> ""
             \/ cs = []).
  { intros [|c cs]; [now right | left]. simpl map.
    apply join_nonempty, append_nonempty_r. discriminate. }
  destruct (Fhir.obs_component obs) as [[|c0 cs]|];
    cbn [PatientObservations.od_code PatientObservations.od_value];
    try (split; [apply or_else_nonempty; discriminate
                | apply valueDisplay_nonempty]).
  split; [apply or_else_nonempty; discriminate |].
  destruct (Hpair (c0 :: cs)) as [H|H]; [| discriminate H].
  destruct cs as [|c1 [|c2 cs]]; try exact H.
  cbn [map]. destruct (JS.includes _ _); [| exact H].
  apply append_nonempty_r. discriminate.
Qed.

(** ** The dosage the medication viewer shows *)

(** X4.  The dosage getMedicationDisplay returns is always "As directed" or
    the frequency string of [dosageInstruction[0].timing.repeat], never the
    dosage text; and when the dosage text is there but [timing] or
    [timing.repeat] is not, getMedicationDisplay throws instead of
    returning. *)
Theorem medication_dosage_never_text :
  (forall m disp,
      PatientMedications.getMedicationDisplay m = JS.Normal disp ->
      PatientMedications.md_dosage disp = "As directed"
      \/ exists d t r,
           PatientMedications.dosage0 m = Some d
           /\ PatientMedications.timing d = Some t
           /\ PatientMedications.repeat t = Some r
           /\ PatientMedications.md_dosage disp
              = PatientMedications.frequencyDosage r)
  /\ (forall m d,
         PatientMedications.dosage0 m = Some d ->
         JS.truthy_opt (PatientMedications.dosage_text d) = true ->
         match PatientMedications.timing d with
         | Some t => PatientMedications.repeat t = None
         | None => True
         end ->
         exists e, PatientMedications.getMedicationDisplay m = JS.Throw e).
Proof.
  split.
  - intros m disp.
    unfold PatientMedications.getMedicationDisplay, PatientMedications.dosage.
    destruct (PatientMedications.dosage_condition m);
      [| intros [= <-]; now left].
    destruct (PatientMedications.dosage0 m) as [d|]; [| discriminate].
    destruct (PatientMedications.timing d) as [t|] eqn:Et; [| discriminate].
    destruct (PatientMedications.repeat t) as [r|] eqn:Er; [| discriminate].
    intros [= <-]. right. exists d, t, r. repeat split; assumption.
  - intros m d Hd Ht Hm.
    unfold PatientMedications.getMedicationDisplay, PatientMedications.dosage,
      PatientMedications.dosage_condition.
    rewrite Hd, Ht. simpl.
    destruct (PatientMedications.timing d) as [t|]; [rewrite Hm |];
      eexists; reflexivity.
Qed.

(** A medication with the dosage text "10 mg once daily" and no timing makes
    getMedicationDisplay throw. *)
Lemma medication_dosage_never_text_witness :
  exists e,
    PatientMedications.getMedicationDisplay Examples.medication_with_text
    = JS.Throw e.
Proof.
  exact (proj2 medication_dosage_never_text Examples.medication_with_text _
           eq_refl eq_refl I).
Defined.

(** ** Names *)

Lemma length_trimStart (s : string) : length (JS.trimStart s) <= length s.
Proof.
  induction s as [|c s IH]; simpl; [lia |].
  destruct (JS.isWhiteSpace c); simpl; lia.
Qed.

Lemma trimStart_idem (s : string) :
  JS.trimStart (JS.trimStart s) = JS.trimStart s.
Proof.
  induction s as [|c s IH]; simpl; [reflexivity |].
  destruct (JS.isWhiteSpace c) eqn:Hc; [exact IH |]. simpl. now rewrite Hc.
Qed.

Lemma trimEnd_idem (s : string) : JS.trimEnd (JS.trimEnd s) = JS.trimEnd s.
Proof.
  induction s as [|c s IH]; simpl; [reflexivity |].
  destruct (JS.trimEnd s) as [|d t] eqn:E.
  - destruct (JS.isWhiteSpace c) eqn:Hc; simpl; [reflexivity | now rewrite Hc].
  - simpl in *. now rewrite IH.
Qed.

Lemma trimStart_trimEnd (t : string) :
  JS.trimStart t = t -> JS.trimStart (JS.trimEnd t) = JS.trimEnd t.
Proof.
  destruct t as [|c t]; [reflexivity |]. simpl.
  destruct (JS.isWhiteSpace c) eqn:Hc.
  - intros H. pose proof (length_trimStart t) as L. rewrite H in L.
    simpl in L. lia.
  - intros _. destruct (JS.trimEnd t); simpl; now rewrite Hc.
Qed.

(** [trim] leaves nothing more to trim. *)
Lemma trim_idem (s : string) : JS.trim (JS.trim s) = JS.trim s.
Proof.
  unfold JS.trim.
  rewrite (trimStart_trimEnd (JS.trimStart s)) by apply trimStart_idem.
  apply trimEnd_idem.
Qed.

Lemma or_else_trim_Unknown (s : string) :
  JS.or_else (Some (JS.trim s)) "Unknown" <> ""
  /\ JS.trim (JS.or_else (Some (JS.trim s)) "Unknown")
     = JS.or_else (Some (JS.trim s)) "Unknown".
Proof.
  split; [apply or_else_nonempty; discriminate |].
  unfold JS.or_else, JS.truthy.
  destruct (String.eqb_spec (JS.trim s) ""); simpl;
    [reflexivity | apply trim_idem].
Qed.

(** X5.  The name on a patient card is never empty and never starts or ends
    with white space, whatever the Patient resource holds; it is "Unknown"
    when the resource has no name entry. *)
Theorem formatName_clean (name : option (list Fhir.HumanName)) :
  PatientList.formatName name <> ""
  /\ JS.trim (PatientList.formatName name) = PatientList.formatName name
  /\ PatientList.formatName None = "Unknown"
  /\ PatientList.formatName (Some []) = "Unknown".
Proof.
  split; [| split; [| split; reflexivity]].
  - destruct name as [[|first rest]|]; simpl; try discriminate.
    apply or_else_trim_Unknown.
  - destruct name as [[|first rest]|]; simpl; try reflexivity.
    apply or_else_trim_Unknown.
Qed.

(** X6.  In both forms the name in the header is the display name stamped on
    the created resource's [subject], except when that display name is
    empty, where the header shows "Unknown": the header is never empty, but
    for a patient whose first name entry has neither given nor family names
    the resource is created with the empty [subject.display]. *)
Theorem header_name_and_subject_display :
  (forall patient,
      LabValueForm.formatPatientName patient
      = JS.or_else (Some (LabValueForm.subjectDisplay patient)) "Unknown"
      /\ LabValueForm.formatPatientName patient <> "")
  /\ (forall patient,
         ConsultationForm.formatPatientName patient
         = JS.or_else (Some (ConsultationForm.subjectDisplay patient))
             "Unknown"
         /\ ConsultationForm.formatPatientName patient <> "")
  /\ (forall fd,
         option_map Fhir.ref_display
           (Fhir.obs_subject (Spec.gfrObservation Examples.nameless fd))
         = Some (Some "")
         /\ LabValueForm.formatPatientName Examples.nameless = "Unknown").
Proof.
  split; [| split; [| intros fd; split; reflexivity]].
  - intros [id name].
    unfold LabValueForm.formatPatientName, LabValueForm.subjectDisplay.
    cbn [Fhir.pat_name].
    destruct name as [[|first rest]|];
      try (split; [reflexivity | discriminate]).
    split; [| apply or_else_nonempty; discriminate].
    destruct (Fhir.hn_given first) as [g|]; cbn [option_map];
      [now rewrite or_else_empty | reflexivity].
  - intros [id name].
    unfold ConsultationForm.formatPatientName, ConsultationForm.subjectDisplay.
    cbn [Fhir.pat_name].
    destruct name as [[|first rest]|];
      try (split; [reflexivity | discriminate]).
    split; [| apply or_else_nonempty; discriminate].
    destruct (Fhir.hn_given first) as [g|]; cbn [option_map];
      [now rewrite or_else_empty | reflexivity].
Qed.

(** ** Loading the patient list *)


(** ** Section text: from the consultation form to the viewer *)

Lemma prefix_cons (a b : ascii) (t s : string) :
  prefix (String a t) (String b s)
  = if Ascii.eqb a b then prefix t s else false.
Proof.
  change (prefix (String a t) (String b s))
    with (match ascii_dec a b with
          | left _ => prefix t s
          | right _ => false
          end).
  destruct (ascii_dec a b) as [->|N].
  - now rewrite Ascii.eqb_refl.
  - destruct (Ascii.eqb_spec a b); [contradiction | reflexivity].
Qed.

Lemma prefix_nil (s : string) : prefix "" s = true.
Proof. now destruct s. Qed.

(** A prefix match in [x ++ y] lies within [x], or starts in [x] and
    runs on into [y]. *)
Lemma prefix_app_split (t x y : string) :
  prefix t (x ++ y) = true ->
  prefix t x = true
  \/ exists t2, t = x ++ t2 /\ t2 <> "" /\ prefix t2 y = true.
Proof.
  revert x. induction t as [|a t IH]; intros x H.
  - left. apply prefix_nil.
  - destruct x as [|b x].
    + right. exists (String a t). repeat split; [discriminate | exact H].
    + simpl append in H. rewrite prefix_cons in *.
      destruct (Ascii.eqb_spec a b) as [->|]; [| discriminate H].
      destruct (IH x H) as [Hl|(t2 & -> & Hn & Hp)]; [now left |].
      right. exists t2. repeat split; assumption.
Qed.

Lemma close_tag_no_border (x t2 r : string) :
  "</div>" = x ++ t2 -> x <> "" ->
  prefix t2 ("</div>" ++ r) = true -> t2 = "".
Proof.
  intros E Hx Hp.
  destruct x as [|c0 x]; [congruence |].
  simpl in E. injection E as _ E.
  change ("</div>" ++ r) with (String "<" ("/div>" ++ r)) in Hp.
  repeat (destruct x as [|? x];
          [ simpl in E; subst t2; rewrite prefix_cons in Hp; simpl in Hp;
            discriminate Hp
          | simpl in E; injection E as _ E ]).
  destruct x; simpl in E; [now symmetry | discriminate E].
Qed.

Lemma before_close_app (x r : string) :
  JS.includes x "</div>" = false ->
  PatientConsultations.before_close (x ++ "</div>" ++ r) = Some x.
Proof.
  induction x as [|c x IH]; intros H.
  - change ((if prefix "</div>" ("</div>" ++ r) then Some ""
             else option_map (String "<")
                    (PatientConsultations.before_close ("/div>" ++ r)))
            = Some "").
    now rewrite prefix_app.
  - change (prefix "</div>" (String c x) || JS.includes x "</div>" = false)
      in H.
    apply orb_false_iff in H as [Hp Hi].
    change (PatientConsultations.before_close
              (String c x ++ "</div>" ++ r))
      with (if prefix "</div>" (String c x ++ "</div>" ++ r) then Some ""
            else option_map (String c)
                   (PatientConsultations.before_close
                      (x ++ "</div>" ++ r))).
    destruct (prefix "</div>" (String c x ++ "</div>" ++ r)) eqn:Hq.
    + exfalso. apply prefix_app_split in Hq.
      destruct Hq as [Hq|(t2 & E & Hn & Hq)]; [congruence |].
      apply Hn. eapply close_tag_no_border; eauto. discriminate.
    + now rewrite (IH Hi).
Qed.

Lemma regex_match_xhtml_div (body : string) :
  PatientConsultations.regex_match (Spec.xhtml_div body)
  = PatientConsultations.before_close (body ++ "</div>").
Proof.
  unfold Spec.xhtml_div.
  destruct (PatientConsultations.before_close (body ++ "</div>")) eqn:E.
  - unfold PatientConsultations.regex_match. simpl append.
    unfold PatientConsultations.match_here. simpl. now rewrite E.
  - exfalso. revert E.
    assert (H : forall x, PatientConsultations.before_close (x ++ "</div>")
                          <> None).
    { clear. induction x as [|c x IH].
      - discriminate.
      - change (PatientConsultations.before_close (String c x ++ "</div>"))
          with (if prefix "</div>" (String c x ++ "</div>") then Some ""
                else option_map (String c)
                       (PatientConsultations.before_close (x ++ "</div>"))).
        destruct (prefix _ _); [discriminate |].
        destruct (PatientConsultations.before_close (x ++ "</div>"));
          [discriminate | contradiction]. }
    apply H.
Qed.

Lemma xhtml_div_truthy (body : string) :
  JS.truthy (Spec.xhtml_div body) = true.
Proof. reflexivity. Qed.

(** X8.  Round trip of a section: the text the consultation viewer extracts
    from a section the consultation form built is the text the user entered,
    trimmed, provided that text does not contain "</div>"; so for a form
    whose section bodies are free of "</div>", the viewer shows, section by
    section, the trimmed non-empty fields of the form. *)
Theorem section_text_round_trip :
  (forall body,
      JS.includes body "</div>" = false ->
      PatientConsultations.extractTextFromDiv (Spec.xhtml_div body)
      = JS.trim body)
  /\ (forall patient fd,
         Forall (fun cb => JS.includes (snd cb) "</div>" = false)
           (Spec.section_fields fd) ->
         map (fun s => PatientConsultations.extractTextFromDiv
                         (Fhir.nar_div (Fhir.sec_text s)))
             (Fhir.cmpn_section
                (ConsultationForm.createComposition patient fd))
         = map (fun cb => JS.trim (snd cb))
               (filter (fun cb => negb (snd cb =? "")%string)
                       (Spec.section_fields fd))).
Proof.
  assert (R : forall body,
             JS.includes body "</div>" = false ->
             PatientConsultations.extractTextFromDiv (Spec.xhtml_div body)
             = JS.trim body).
  { intros body H. unfold PatientConsultations.extractTextFromDiv.
    rewrite xhtml_div_truthy, regex_match_xhtml_div.
    rewrite <- (append_nil_r "</div>") at 1.
    now rewrite before_close_app. }
  split; [exact R |].
  intros patient fd Hall.
  pose proof (consultation_sections_view fd) as V.
  change (Fhir.cmpn_section (ConsultationForm.createComposition patient fd))
    with (ConsultationForm.sections fd).
  assert (E : map (fun s => PatientConsultations.extractTextFromDiv
                              (Fhir.nar_div (Fhir.sec_text s)))
                  (ConsultationForm.sections fd)
              = map (fun v => PatientConsultations.extractTextFromDiv (snd v))
                    (map Spec.section_view (ConsultationForm.sections fd)))
    by (now rewrite map_map).
  rewrite E, V, map_map. cbn [snd].
  apply map_ext_in. intros cb Hin. apply R.
  apply filter_In in Hin as [Hin _].
  rewrite Forall_forall in Hall. now apply Hall.
Qed.

(** The assessment " stable " comes back as "stable". *)
Lemma section_text_round_trip_witness :
  PatientConsultations.extractTextFromDiv (Spec.xhtml_div " stable ")
  = JS.trim " stable ".
Proof.
  exact (proj1 section_text_round_trip " stable " eq_refl).
Defined.

Lemma match_here_needs_div (s : string) :
  prefix "<div" s = false -> PatientConsultations.match_here s = None.
Proof. unfold PatientConsultations.match_here. now intros ->. Qed.

(** X9.  A text without "<div" is shown by the consultation viewer exactly
    as it is, not trimmed; the empty text is shown as the empty text. *)
Theorem extractTextFromDiv_plain (s : string) :
  JS.includes s "<div" = false ->
  PatientConsultations.extractTextFromDiv s = s.
Proof.
  intros H. unfold PatientConsultations.extractTextFromDiv, JS.truthy.
  destruct (String.eqb_spec s "") as [->|_]; [reflexivity |]. simpl.
  assert (E : PatientConsultations.regex_match s = None).
  { induction s as [|c s IH].
    - reflexivity.
    - change (prefix "<div" (String c s) || JS.includes s "<div" = false)
        in H.
      apply orb_false_iff in H as [Hp Hi].
      change (PatientConsultations.regex_match (String c s))
        with (match PatientConsultations.match_here (String c s) with
              | Some g => Some g
              | None => PatientConsultations.regex_match s
              end).
      rewrite (match_here_needs_div _ Hp). now apply IH. }
  now rewrite E.
Qed.

Lemma extractTextFromDiv_plain_witness :
  PatientConsultations.extractTextFromDiv " see the note " = " see the note ".
Proof. exact (extractTextFromDiv_plain " see the note " eq_refl). Defined.

(** ** The seed script's deletes *)

Section Deletes.
Variable server : SeedScript.Server.

(** X10.  deleteResource never throws.  It sends the DELETE once, and once
    more without cascade exactly when cascade was asked for and the first
    DELETE was answered with an HTTP status other than 2xx and 404 (a
    network failure is not retried); it returns true exactly when the last
    DELETE it sent was answered 2xx or 404. *)
Theorem deleteResource_result (rt id : string) (cascade : bool)
    (h : list SeedScript.Request) :
  let first := SeedScript.Delete rt id cascade in
  let retry := cascade && Spec.delete_refused (server h first) in
  SeedScript.deleteResource server rt id cascade h
  = (JS.Normal
       (if retry
        then Spec.delete_accepted
               (server (h ++ [first])%list (SeedScript.Delete rt id false))
        else Spec.delete_accepted (server h first)),
     (h ++ (if retry then [first; SeedScript.Delete rt id false]
            else [first]))%list).
Proof.
  cbv zeta. unfold SeedScript.deleteResource, SeedScript.deleteResource_plain,
    SeedScript.try_catch, SeedScript.bind, SeedScript.fetch, SeedScript.ret,
    Spec.delete_refused, Spec.delete_accepted.
  destruct cascade; simpl.
  - destruct (server h (SeedScript.Delete rt id true)) as [m|st body];
      [reflexivity |]. simpl.
    destruct (SeedScript.ok st); simpl; [reflexivity |].
    destruct (st =? 404)%N; simpl; [reflexivity |].
    destruct (server (h ++ [SeedScript.Delete rt id true])%list
                (SeedScript.Delete rt id false)) as [m'|st' body']; simpl.
    + now rewrite <- app_assoc.
    + rewrite <- app_assoc.
      destruct (SeedScript.ok st'); simpl; [reflexivity |].
      destruct (st' =? 404)%N; reflexivity.
  - destruct (server h (SeedScript.Delete rt id false)) as [m|st body];
      [reflexivity |]. simpl.
    destruct (SeedScript.ok st); simpl; [reflexivity |].
    destruct (st =? 404)%N; reflexivity.
Qed.

Lemma entry_ids_cons (e : SeedScript.Entry) (es : list SeedScript.Entry) :
  Spec.entry_ids (e :: es)
  = (match SeedScript.resource e with
     | Some res =>
         if JS.truthy_opt (SeedScript.res_id res)
         then [JS.template (SeedScript.res_id res)]
         else []
     | None => []
     end ++ Spec.entry_ids es)%list.
Proof. reflexivity. Qed.

Lemma deleteEntries_exact (rt : string) (cascade : bool)
    (es : list SeedScript.Entry) (n : nat) (h : list SeedScript.Request) :
  exists n' seg,
    SeedScript.deleteEntries server rt cascade es n h
    = (JS.Normal n', h ++ seg)%list
    /\ filter (fun r => Bool.eqb (Spec.cascading r) cascade) seg
       = map (fun id => SeedScript.Delete rt id cascade) (Spec.entry_ids es)
    /\ n <= n' <= n + List.length (Spec.entry_ids es)
    /\ Forall (fun r => exists id c, In id (Spec.entry_ids es)
                                     /\ r = SeedScript.Delete rt id c) seg.
Proof.
  revert n h. induction es as [|e es IH]; intros n h.
  - exists n, []. simpl. rewrite app_nil_r.
    repeat split; [lia | lia | constructor].
  - simpl SeedScript.deleteEntries. rewrite entry_ids_cons.
    destruct (SeedScript.resource e) as [res|]; [| exact (IH n h)].
    destruct (JS.truthy_opt (SeedScript.res_id res)); [| exact (IH n h)].
    unfold SeedScript.bind.
    rewrite (deleteResource_result rt (JS.template (SeedScript.res_id res))
               cascade h).
    set (id := JS.template (SeedScript.res_id res)).
    set (retry := cascade
                  && Spec.delete_refused
                       (server h (SeedScript.Delete rt id cascade))).
    set (b := if retry then _ else _).
    set (seg0 := if retry then [SeedScript.Delete rt id cascade;
                                SeedScript.Delete rt id false]
                 else [SeedScript.Delete rt id cascade]).
    destruct (IH (if b then S n else n) (h ++ seg0)%list)
      as (n' & seg & E & F & L & A).
    rewrite E. exists n', (seg0 ++ seg)%list.
    split; [now rewrite app_assoc |].
    split; [| split].
    + rewrite filter_app, F. simpl app. f_equal.
      subst seg0 retry. destruct cascade; simpl.
      * destruct (Spec.delete_refused _); reflexivity.
      * reflexivity.
    + simpl List.length. destruct b; lia.
    + apply Forall_app. split.
      * subst seg0. destruct retry; repeat constructor;
          do 2 eexists; (split; [left; reflexivity | reflexivity]).
      * eapply Forall_impl; [| exact A].
        intros r (i & c & Hi & ->). exists i, c. split; [now right |
          reflexivity].
Qed.

(** X11.  deletePatientResources never throws.  After its search it sends
    DELETEs only for the ids the search answer lists, one first attempt per
    listed id, in the listed order, with the cascade flag it was given
    (besides those only the retries without cascade), and the count it
    returns is at most the number of listed ids; when the search fails or
    lists nothing it deletes nothing. *)
Theorem deletePatientResources_exact (rt pid : string) (cascade : bool)
    (h : list SeedScript.Request) :
  let q := SeedScript.Search rt "subject" ("Patient/" ++ pid) in
  let ids := Spec.entry_ids (Spec.listed (server h q)) in
  exists n deletes,
    SeedScript.deletePatientResources server rt pid cascade h
    = (JS.Normal n, h ++ q :: deletes)%list
    /\ filter (fun r => Bool.eqb (Spec.cascading r) cascade) deletes
       = map (fun id => SeedScript.Delete rt id cascade) ids
    /\ n <= List.length ids
    /\ Forall (fun r => exists id c, In id ids
                                     /\ r = SeedScript.Delete rt id c)
         deletes.
Proof.
  cbv zeta.
  unfold SeedScript.deletePatientResources, SeedScript.try_catch,
    SeedScript.bind, SeedScript.fetch, SeedScript.ret, Spec.listed.
  set (q := SeedScript.Search rt "subject" ("Patient/" ++ pid)).
  destruct (server h q) as [m|st body]; simpl.
  { exists 0, []. repeat split; constructor. }
  destruct (SeedScript.ok st); simpl.
  2: { exists 0, []. destruct body; repeat split; constructor. }
  destruct body as [data|]; simpl.
  2: { exists 0, []. repeat split; constructor. }
  destruct (SeedScript.entry data) as [[|e es]|].
  - exists 0, []. repeat split; constructor.
  - destruct (deleteEntries_exact rt cascade (e :: es) 0 (h ++ [q])%list)
      as (n & seg & E & F & L & A).
    rewrite E. exists n, seg. rewrite <- app_assoc.
    repeat split; [exact F | lia | exact A].
  - exists 0, []. repeat split; constructor.
Qed.

End Deletes.

Section PatientDeletes.
Variable server : SeedScript.Server.

Lemma type_segments_no_patient_delete (pid : string) (types : list string)
    (segs : list (list SeedScript.Request)) :
  Forall2 (Spec.type_segment pid) types segs ->
  Forall (fun rt => (rt =? "Patient")%string = false) types ->
  filter Spec.patient_delete (List.concat segs) = [].
Proof.
  induction 1 as [|rt seg types segs Hs _ IH]; intros Ht; [reflexivity |].
  inversion Ht as [|? ? Hrt Ht']; subst. simpl. rewrite filter_app, (IH Ht').
  rewrite app_nil_r. destruct Hs as (deletes & -> & Hd). simpl.
  induction Hd as [|r deletes [(id & c & ->) _] _ IHd]; [reflexivity |].
  simpl. now rewrite Hrt.
Qed.

Lemma patient_trace_patient_delete (pid : string)
    (tr : list SeedScript.Request) :
  Spec.patient_trace pid tr ->
  filter Spec.patient_delete tr = [SeedScript.Delete "Patient" pid true].
Proof.
  intros (segs & pseg & -> & Hs & Hp).
  rewrite filter_app, (type_segments_no_patient_delete pid _ _ Hs).
  - destruct Hp as [->| ->]; reflexivity.
  - repeat constructor.
Qed.

Lemma for_of_patients_exact (es : list SeedScript.Entry)
    (h : list SeedScript.Request) :
  exists st tr,
    SeedScript.for_of (map SeedScript.resource es)
      (fun patient =>
         match patient with
         | Some p => SeedScript.deletePatient server p
         | None =>
             SeedScript.throw
               "Cannot read properties of undefined (reading 'id')"
         end) h
    = (st, h ++ tr)%list
    /\ filter Spec.patient_delete tr
       = map (fun p => SeedScript.Delete "Patient"
                         (JS.template (SeedScript.res_id p)) true)
             (Spec.processed es)
    /\ (List.length (Spec.processed es) = List.length es ->
        st = JS.Normal tt)
    /\ (List.length (Spec.processed es) < List.length es ->
        exists m, st = JS.Throw m).
Proof.
  revert h. induction es as [|e es IH]; intros h.
  - exists (JS.Normal tt), []. simpl. rewrite app_nil_r.
    repeat split; simpl; try reflexivity; lia.
  - simpl. destruct (SeedScript.resource e) as [p|].
    + unfold SeedScript.bind at 1.
      destruct (deletePatient_trace server p h) as (tr & E & Ht). rewrite E.
      destruct (IH (h ++ tr)%list) as (st & tr' & E' & F & C1 & C2).
      rewrite E'. exists st, (tr ++ tr')%list.
      split; [now rewrite app_assoc |]. split; [| split].
      * rewrite filter_app, F, (patient_trace_patient_delete _ _ Ht).
        reflexivity.
      * simpl. intros L. apply C1. lia.
      * simpl. intros L. apply C2. lia.
    + exists (JS.Throw "Cannot read properties of undefined (reading 'id')"),
        [].
      simpl. rewrite app_nil_r.
      split; [reflexivity | split; [reflexivity | split]];
        [lia | intros _; now eexists].
Qed.

(** X12.  The cleanup phase deletes exactly the patients its search lists:
    after the search, its cascading Patient DELETEs are those of the listed
    patients, one each, in the listed order, up to the first entry that has
    no resource (where it throws); when the search fails, is answered
    non-2xx or lists nothing, the search is its only request. *)
Theorem cleanup_deletes_listed_patients (h : list SeedScript.Request) :
  let q := SeedScript.Search "Patient" "organization"
             "Organization/53655767" in
  let es := Spec.listed (server h q) in
  exists st tr,
    SeedScript.deleteAllPatients server h = (st, h ++ q :: tr)%list
    /\ filter Spec.patient_delete tr
       = map (fun p => SeedScript.Delete "Patient"
                         (JS.template (SeedScript.res_id p)) true)
             (Spec.processed es)
    /\ (es = [] -> tr = [])
    /\ (es <> [] ->
        (List.length (Spec.processed es) = List.length es ->
         st = JS.Normal tt)
        /\ (List.length (Spec.processed es) < List.length es ->
            exists m, st = JS.Throw m)).
Proof.
  cbv zeta.
  unfold SeedScript.deleteAllPatients, SeedScript.bind, SeedScript.fetch,
    Spec.listed.
  set (q := SeedScript.Search "Patient" "organization"
              ("Organization/" ++ SeedScript.ORGANIZATION_ID)).
  change (SeedScript.Search "Patient" "organization" "Organization/53655767")
    with q.
  destruct (server h q) as [m|st body].
  { exists (JS.Throw m), []. repeat split; congruence. }
  cbn [fst snd]. destruct (SeedScript.ok st); cbn [negb].
  2: { exists (JS.Normal tt), []. destruct body; repeat split; congruence. }
  destruct body as [data|].
  2: { eexists _, []. repeat split; congruence. }
  cbn [SeedScript.json SeedScript.ret].
  destruct (SeedScript.entry data) as [[|e es]|].
  - exists (JS.Normal tt), []. repeat split; congruence.
  - destruct (for_of_patients_exact (e :: es) (h ++ [q])%list)
      as (st' & tr & E & F & C1 & C2).
    exists st', tr. rewrite <- app_assoc in E.
    repeat split; try assumption. discriminate.
  - exists (JS.Normal tt), []. repeat split; congruence.
Qed.

End PatientDeletes.

(** ** When a submission succeeds, and what it reports when it does not *)

Lemma first_rejection_answered
    (fetch : LabValueForm.Request -> Fhir.FetchResult)
    (reqs : list LabValueForm.Request) :
  LabValueForm.first_rejection (map fetch reqs) = None
  <-> forallb (Spec.lab_answered fetch) reqs = true.
Proof.
  unfold Spec.lab_answered.
  induction reqs as [|r reqs IH]; simpl; [tauto |].
  destruct (fetch r); simpl; [split; discriminate | exact IH].
Qed.

Lemma collect_errors_lines (fetch : LabValueForm.Request -> Fhir.FetchResult)
    (obs : list Fhir.Observation) :
  forallb (Spec.lab_answered fetch) (map LabValueForm.post obs) = true ->
  LabValueForm.collect_errors obs (map fetch (map LabValueForm.post obs))
  = map (Spec.lab_error_line fetch)
        (filter (Spec.lab_failed fetch) (map LabValueForm.post obs)).
Proof.
  unfold Spec.lab_answered, Spec.lab_failed, Spec.lab_error_line.
  induction obs as [|o obs IH]; simpl; [reflexivity |].
  destruct (fetch (LabValueForm.post o)) as [m|st body] eqn:E; simpl;
    [discriminate |].
  intros H. rewrite (IH H).
  destruct (Fhir.ok st); simpl; [reflexivity |]. now rewrite E.
Qed.

Lemma lab_created_split (fetch : LabValueForm.Request -> Fhir.FetchResult)
    (reqs : list LabValueForm.Request) :
  forallb (Spec.lab_created fetch) reqs = true
  <-> forallb (Spec.lab_answered fetch) reqs = true
      /\ filter (Spec.lab_failed fetch) reqs = [].
Proof.
  unfold Spec.lab_created, Spec.lab_answered, Spec.lab_failed.
  induction reqs as [|r reqs IH]; simpl; [tauto |].
  destruct (fetch r) as [m|st body]; simpl.
  - split; [discriminate | intros [H _]; discriminate H].
  - destruct (Fhir.ok st); simpl; [exact IH |].
    split; [discriminate | intros [_ H]; discriminate H].
Qed.

Lemma submit_outcome (fetch : LabValueForm.Request -> Fhir.FetchResult)
    (obs : list Fhir.Observation) :
  obs <> [] ->
  forallb (Spec.lab_answered fetch) (map LabValueForm.post obs) = true ->
  LabValueForm.outcome (LabValueForm.submit fetch obs)
  = match map (Spec.lab_error_line fetch)
            (filter (Spec.lab_failed fetch) (map LabValueForm.post obs)) with
    | [] => JS.Normal tt
    | lines => JS.Throw (JS.join "; " lines)
    end.
Proof.
  intros Hne Ha. unfold LabValueForm.submit.
  destruct obs as [|o obs]; [congruence |].
  rewrite (proj2 (first_rejection_answered fetch _) Ha).
  rewrite (collect_errors_lines fetch _ Ha).
  now destruct (map (Spec.lab_error_line fetch) _).
Qed.

(** X13.  A lab-value submission succeeds exactly when it passed validation
    (so at least one POST was sent) and every POST it sent was answered with
    a 2xx status. *)
Theorem lab_submission_succeeds_iff (patient : Fhir.Patient)
    (fd : LabValueForm.FormData)
    (fetch : LabValueForm.Request -> Fhir.FetchResult) :
  let run := LabValueForm.handleSubmit patient fd fetch in
  LabValueForm.outcome run = JS.Normal tt
  <-> LabValueForm.requests run <> []
      /\ forallb (Spec.lab_created fetch) (LabValueForm.requests run) = true.
Proof.
  cbv zeta. rewrite handleSubmit_cases.
  destruct (_ && _); [simpl; split; [discriminate | intros [H _]; congruence] |].
  destruct (_ && _); [simpl; split; [discriminate | intros [H _]; congruence] |].
  rewrite submit_requests.
  set (obs := (_ ++ _)%list).
  destruct obs as [|o obs'] eqn:Eo.
  { simpl. split; [discriminate | intros [H _]; congruence]. }
  rewrite lab_created_split.
  destruct (forallb (Spec.lab_answered fetch)
              (map LabValueForm.post (o :: obs'))) eqn:Ha.
  - rewrite (submit_outcome fetch (o :: obs')) by (discriminate || exact Ha).
    destruct (filter _ _) as [|r rs]; simpl.
    + split; [intros _; repeat split; discriminate | reflexivity].
    + split; [discriminate | intros [_ [_ H]]; discriminate H].
  - split; [| intros [_ [H _]]; discriminate H].
    intros H. exfalso. revert H. unfold LabValueForm.submit.
    destruct (LabValueForm.first_rejection _) eqn:Ef; [discriminate |].
    apply first_rejection_answered in Ef. congruence.
Qed.



(** X15.  A consultation submission succeeds exactly when it passed
    validation and its single POST, of the Composition the builder built,
    was answered with a 2xx status. *)
Theorem consultation_submission_succeeds_iff (patient : Fhir.Patient)
    (fd : ConsultationForm.FormData)
    (fetch : ConsultationForm.Request -> Fhir.FetchResult) :
  let run := ConsultationForm.handleSubmit patient fd fetch in
  let req := ConsultationForm.post
               (ConsultationForm.createComposition patient fd) in
  ConsultationForm.outcome run = JS.Normal tt
  <-> ~ Spec.consultation_rejected run
      /\ exists st body, fetch req = Fhir.Response st body
                         /\ Fhir.ok st = true.
Proof.
  cbv zeta. rewrite consultation_rejected_iff.
  unfold ConsultationForm.handleSubmit, JS.truthy.
  destruct (String.eqb_spec (ConsultationForm.chiefComplaint fd) "")
    as [E1|N1];
    destruct (String.eqb_spec (ConsultationForm.assessment fd) "")
      as [E2|N2];
    destruct (String.eqb_spec (ConsultationForm.plan fd) "") as [E3|N3];
    cbn [negb andb];
    try (split; [discriminate | intros [H _]; exfalso; apply H; now repeat split]);
    (destruct (Nat.eqb _ 0) eqn:El;
     [ apply Nat.eqb_eq, length_zero_iff_nil, consultation_sections_empty in El;
       destruct El as (? & ? & ?); congruence |];
     destruct (fetch _) as [m|st body];
     [ cbn; split; [discriminate | intros [_ (s & b & H & _)]; discriminate H] |];
     destruct (Fhir.ok st) eqn:Hok; cbn;
     [ split; [intros _; split; [tauto | now exists st, body] | reflexivity]
     | split; [discriminate
              | intros [_ (s & b & [= <- <-] & H)]; congruence] ]).
Qed.

